(** * Verification model of the go_handler upload server (handler.go)

    Shallow embedding of the request admission pipeline ([getRequestError]),
    the per-address token buckets ([ipLimiter.getLimiter] over
    golang.org/x/time/rate), and the upload handler ([readRequest]) together
    with the request dispatcher ([requestHandler]).  An earlier revision of
    the same program (src/unnamed/part_000) is embedded in module [Rev0].

    Strings are Go byte strings, modelled as [string] (8-bit [ascii]).
    Time is a [Z] count of nanoseconds since the Unix epoch; the float64
    token counts of the rate limiter are modelled as exact rationals [Q]. *)

From Stdlib Require Import Bool List ZArith QArith Qround Lia Lqa.
From Stdlib Require Import Strings.String Strings.Ascii.
Import ListNotations.

Open Scope string_scope.

(* ------------------------------------------------------------------ *)
(** ** Byte-string helpers *)

Definition is_digit (c : ascii) : bool :=
  (48 <=? nat_of_ascii c)%nat && (nat_of_ascii c <=? 57)%nat.

Definition is_lower (c : ascii) : bool :=
  (97 <=? nat_of_ascii c)%nat && (nat_of_ascii c <=? 122)%nat.

Definition is_upper (c : ascii) : bool :=
  (65 <=? nat_of_ascii c)%nat && (nat_of_ascii c <=? 90)%nat.

Definition digit_val (c : ascii) : Z := Z.of_nat (nat_of_ascii c - 48).

(** Value of a hexadecimal digit, either case. *)
Definition hex_val (c : ascii) : option Z :=
  if is_digit c then Some (digit_val c)
  else if (97 <=? nat_of_ascii c)%nat && (nat_of_ascii c <=? 102)%nat
  then Some (Z.of_nat (nat_of_ascii c - 97 + 10))
  else if (65 <=? nat_of_ascii c)%nat && (nat_of_ascii c <=? 70)%nat
  then Some (Z.of_nat (nat_of_ascii c - 65 + 10))
  else None.

(** First index of byte [c] in [s] (strings.IndexByte, -1 as [None]). *)
Fixpoint index_byte (s : string) (c : ascii) : option nat :=
  match s with
  | EmptyString => None
  | String a s' => if Ascii.eqb a c then Some 0%nat
                   else option_map S (index_byte s' c)
  end.

(** Last index of byte [c] in [s] (strings.LastIndexByte). *)
Fixpoint last_index_byte (s : string) (c : ascii) : option nat :=
  match s with
  | EmptyString => None
  | String a s' =>
      match last_index_byte s' c with
      | Some i => Some (S i)
      | None => if Ascii.eqb a c then Some 0%nat else None
      end
  end.

Definition has_byte (s : string) (c : ascii) : bool :=
  match index_byte s c with Some _ => true | None => false end.

(** Go slicing [s[i:j]], [s[:i]] and [s[i:]]. *)
Definition slice (s : string) (i j : nat) : string := substring i (j - i) s.
Definition take (i : nat) (s : string) : string := substring 0 i s.
Definition drop (i : nat) (s : string) : string := substring i (String.length s - i) s.

(** Decimal rendering of a natural number (strconv.Itoa). *)
Fixpoint dec_aux (fuel n : nat) (acc : string) : string :=
  match fuel with
  | O => acc
  | S f =>
      let acc' := String (ascii_of_nat (48 + n mod 10)) acc in
      if (n <? 10)%nat then acc' else dec_aux f (n / 10) acc'
  end.

Definition itoa (n : nat) : string := dec_aux (S n) n "".

(** Lower-case hexadecimal rendering without leading zeros. *)
Definition hex_digit_lower (d : nat) : ascii :=
  if (d <? 10)%nat then ascii_of_nat (48 + d) else ascii_of_nat (87 + d).

Fixpoint hex_aux (fuel n : nat) (acc : string) : string :=
  match fuel with
  | O => acc
  | S f =>
      let acc' := String (hex_digit_lower (n mod 16)) acc in
      if (n <? 16)%nat then acc' else hex_aux f (n / 16) acc'
  end.

Definition hex_lower (n : nat) : string := hex_aux (S n) n "".

(* ------------------------------------------------------------------ *)
(** ** net.SplitHostPort *)

Definition addrError (addr why : string) : string :=
  if String.eqb addr "" then why else "address " ++ addr ++ ": " ++ why.

Definition missingPort := "missing port in address".
Definition tooManyColons := "too many colons in address".

(** [inl (host, port)] on success, [inr msg] with the error text. *)
Definition SplitHostPort (hostport : string) : (string * string) + string :=
  match last_index_byte hostport ":" with
  | None => inr (addrError hostport missingPort)
  | Some i =>
      let bracket : (string * nat * nat) + string :=
        if (match get 0 hostport with Some c => Ascii.eqb c "[" | None => false end)
        then
          match index_byte hostport "]" with
          | None => inr (addrError hostport "missing ']' in address")
          | Some end_ =>
              if (S end_ =? String.length hostport)%nat
              then inr (addrError hostport missingPort)
              else if (S end_ =? i)%nat
              then inl (slice hostport 1 end_, 1%nat, S end_)
              else if (match get (S end_) hostport with
                       | Some c => Ascii.eqb c ":" | None => false end)
              then inr (addrError hostport tooManyColons)
              else inr (addrError hostport missingPort)
          end
        else
          let host := take i hostport in
          if has_byte host ":" then inr (addrError hostport tooManyColons)
          else inl (host, 0%nat, 0%nat)
      in
      match bracket with
      | inr e => inr e
      | inl (host, j, k) =>
          if has_byte (drop j hostport) "["
          then inr (addrError hostport "unexpected '[' in address")
          else if has_byte (drop k hostport) "]"
          then inr (addrError hostport "unexpected ']' in address")
          else inl (host, drop (S i) hostport)
      end
  end.

(* ------------------------------------------------------------------ *)
(** ** net.ParseIP and net.IP.String

    A parsed address is its 16-byte form (IPv4 addresses are stored
    IPv4-mapped, as [ParseIP] returns them).  Addresses with a zone are
    rejected by [ParseIP]. *)

Definition IP := list Z.

(** The dotted-quad parser of netip ([parseIPv4] / [parseIPv4Fields]):
    [first] marks position 0, [prev_dot] the previous byte being a dot. *)
Fixpoint v4_loop (s : string) (first prev_dot : bool)
    (fields : list Z) (val : Z) (digLen : nat) : option (list Z) :=
  match s with
  | EmptyString =>
      if (List.length fields <? 3)%nat then None else Some (rev (val :: fields))
  | String c s' =>
      if is_digit c then
        if (digLen =? 1)%nat && (val =? 0)%Z then None
        else
          let v := (val * 10 + digit_val c)%Z in
          if (255 <? v)%Z then None
          else v4_loop s' false false fields v (S digLen)
      else if Ascii.eqb c "." then
        if first || String.eqb s' "" || prev_dot then None
        else if (List.length fields =? 3)%nat then None
        else v4_loop s' false true (val :: fields) 0 0
      else None
  end.

Definition parseIPv4Fields (s : string) : option (list Z) :=
  v4_loop s true false [] 0 0.

(** One hexadecimal group of an IPv6 address: at most four digits. *)
Fixpoint hex_group (s : string) (off : nat) (acc : Z)
    : option (nat * Z * string) :=
  match s with
  | EmptyString => Some (off, acc, EmptyString)
  | String c s' =>
      match hex_val c with
      | Some v => if (4 <=? off)%nat then None
                  else hex_group s' (S off) (acc * 16 + v)%Z
      | None => Some (off, acc, s)
      end
  end.

(** The group loop of netip's [parseIPv6]; [i] counts bytes written,
    [ell] is the byte position of the [::] ellipsis.  Returns the unparsed
    rest, [i], [ell] and the bytes, or [None] on a parse error. *)
Fixpoint v6_loop (fuel : nat) (s : string) (i : nat) (ell : option nat)
    (ip : list Z) : option (string * nat * option nat * list Z) :=
  match fuel with
  | O => Some (s, i, ell, ip)
  | S f =>
      match hex_group s 0 0 with
      | None => None
      | Some (off, acc, rest) =>
          if (off =? 0)%nat then None
          else if (match rest with String c _ => Ascii.eqb c "." | _ => false end)
          then
            if (match ell with None => true | Some _ => false end)
               && negb (i =? 12)%nat then None
            else if (16 <? i + 4)%nat then None
            else match parseIPv4Fields s with
                 | None => None
                 | Some b4 => Some (EmptyString, (i + 4)%nat, ell, (ip ++ b4)%list)
                 end
          else
            let ip' := (ip ++ [Z.shiftr acc 8; Z.land acc 255])%list in
            let i' := (i + 2)%nat in
            match rest with
            | EmptyString => Some (EmptyString, i', ell, ip')
            | String c r =>
                if negb (Ascii.eqb c ":") then None
                else match r with
                     | EmptyString => None
                     | String c2 r2 =>
                         if Ascii.eqb c2 ":" then
                           match ell with
                           | Some _ => None
                           | None =>
                               match r2 with
                               | EmptyString => Some (EmptyString, i', Some i', ip')
                               | _ => v6_loop f r2 i' (Some i') ip'
                               end
                           end
                         else v6_loop f r i' ell ip'
                     end
            end
      end
  end.

(** netip's [parseIPv6] followed by [ParseIP]'s rejection of zones. *)
Definition parseIPv6 (s : string) : option IP :=
  if has_byte s "%" then None
  else
    let '(s0, ell0, lead) :=
      match s with
      | String ":" (String ":" r) => (r, Some 0%nat, true)
      | _ => (s, None, false)
      end in
    if lead && String.eqb s0 "" then Some (repeat 0%Z 16)
    else
      match v6_loop 8 s0 0 ell0 [] with
      | None => None
      | Some (rest, i, ell, ip) =>
          if negb (String.eqb rest "") then None
          else if (i <? 16)%nat then
            match ell with
            | None => None
            | Some e => Some (firstn e ip ++ repeat 0%Z (16 - i) ++ skipn e ip)%list
            end
          else match ell with Some _ => None | None => Some ip end
      end.

Definition v4_in_v6_prefix : list Z := [0;0;0;0;0;0;0;0;0;0;255;255]%Z.

(** netip.ParseAddr dispatches on the first '.', ':' or '%'. *)
Fixpoint addr_kind (s : string) : option ascii :=
  match s with
  | EmptyString => None
  | String c s' =>
      if Ascii.eqb c "." || Ascii.eqb c ":" || Ascii.eqb c "%" then Some c
      else addr_kind s'
  end.

Definition ParseIP (s : string) : option IP :=
  match addr_kind s with
  | Some "."%char =>
      option_map (fun b4 => (v4_in_v6_prefix ++ b4)%list) (parseIPv4Fields s)
  | Some ":"%char => parseIPv6 s
  | _ => None
  end.

Definition dotted (b : list Z) : string :=
  match b with
  | [a; b; c; d] =>
      itoa (Z.to_nat a) ++ "." ++ itoa (Z.to_nat b) ++ "." ++
      itoa (Z.to_nat c) ++ "." ++ itoa (Z.to_nat d)
  | _ => "?"
  end.

Definition group (ip : IP) (k : nat) : Z :=
  (nth (2 * k) ip 0 * 256 + nth (2 * k + 1) ip 0)%Z.

(** Length of the run of zero groups starting at group [j]. *)
Fixpoint zero_run (ip : IP) (j fuel : nat) : nat :=
  match fuel with
  | O => O
  | S f => if (group ip j =? 0)%Z then S (zero_run ip (S j) f) else O
  end.

(** The first longest run of at least two zero groups, as (start, end). *)
Fixpoint longest_zero (ip : IP) (i fuel : nat) (zs ze : nat) : nat * nat :=
  match fuel with
  | O => (zs, ze)
  | S f =>
      let l := zero_run ip i (8 - i) in
      if (2 <=? l)%nat && (ze - zs <? l)%nat
      then longest_zero ip (S i) f i (i + l)
      else longest_zero ip (S i) f zs ze
  end.

Fixpoint fmt6 (ip : IP) (i fuel : nat) (zs ze : nat) : string :=
  match fuel with
  | O => ""
  | S f =>
      if (8 <=? i)%nat then ""
      else if (i =? zs)%nat then
        if (8 <=? ze)%nat then "::"
        else "::" ++ hex_lower (Z.to_nat (group ip ze)) ++ fmt6 ip (S ze) f zs ze
      else (if (0 <? i)%nat then ":" else "")
           ++ hex_lower (Z.to_nat (group ip i)) ++ fmt6 ip (S i) f zs ze
  end.

(** net.IP.String: dotted notation for IPv4-mapped addresses, the
    canonical compressed form otherwise. *)
Definition IP_String (ip : IP) : string :=
  if list_eq_dec Z.eq_dec (firstn 12 ip) v4_in_v6_prefix
  then dotted (skipn 12 ip)
  else let '(zs, ze) := longest_zero ip 0 8 255 255 in fmt6 ip 0 8 zs ze.

(* ------------------------------------------------------------------ *)
(** ** url.PathEscape (mode encodePathSegment) *)

Definition shouldEscapeSegment (c : ascii) : bool :=
  if is_lower c || is_upper c || is_digit c then false
  else if existsb (Ascii.eqb c) ["-"; "_"; "."; "~"]%char then false
  else if existsb (Ascii.eqb c) ["$"; "&"; "+"; ","; "/"; ":"; ";"; "="; "?"; "@"]%char
  then existsb (Ascii.eqb c) ["/"; ";"; ","; "?"]%char
  else true.

Definition hex_upper (d : nat) : ascii :=
  if (d <? 10)%nat then ascii_of_nat (48 + d) else ascii_of_nat (55 + d).

Fixpoint PathEscape (s : string) : string :=
  match s with
  | EmptyString => EmptyString
  | String c s' =>
      if shouldEscapeSegment c
      then String "%" (String (hex_upper (nat_of_ascii c / 16))
                        (String (hex_upper (nat_of_ascii c mod 16)) (PathEscape s')))
      else String c (PathEscape s')
  end.

(* ------------------------------------------------------------------ *)
(** ** path/filepath on Unix: Clean and Join

    [Clean] is computed on the list of '/'-separated elements with a stack
    of kept elements (innermost first): "" and "." are dropped, ".." pops a
    kept name, is dropped at the root of a rooted path and is kept when
    nothing can be popped in a relative path. *)

Fixpoint split_slash (s : string) : list string :=
  match s with
  | EmptyString => [EmptyString]
  | String c s' =>
      let r := split_slash s' in
      if Ascii.eqb c "/" then EmptyString :: r
      else match r with
           | h :: t => String c h :: t
           | [] => [String c EmptyString]
           end
  end.

Definition clean_step (rooted : bool) (stk : list string) (e : string)
    : list string :=
  if String.eqb e "" || String.eqb e "." then stk
  else if String.eqb e ".." then
    match stk with
    | top :: rest => if String.eqb top ".." then ".." :: stk else rest
    | [] => if rooted then [] else [".."]
    end
  else e :: stk.

Definition is_rooted (s : string) : bool :=
  match s with String c _ => Ascii.eqb c "/" | EmptyString => false end.

Definition clean_stack (rooted : bool) (s : string) : list string :=
  fold_left (clean_step rooted) (split_slash s) [].

Definition Clean (s : string) : string :=
  if String.eqb s "" then "."
  else
    let r := is_rooted s in
    let body := String.concat "/" (rev (clean_stack r s)) in
    if r then "/" ++ body
    else if String.eqb body "" then "." else body.

Fixpoint drop_empty (es : list string) : list string :=
  match es with
  | e :: es' => if String.eqb e "" then drop_empty es' else es
  | [] => []
  end.

(** filepath.Join: the elements from the first non-empty one, joined with
    '/' and cleaned; "" when all are empty. *)
Definition Join (elems : list string) : string :=
  match drop_empty elems with
  | [] => ""
  | es => Clean (String.concat "/" es)
  end.

(* ------------------------------------------------------------------ *)
(** ** The file system

    An absolute path is the list of its names, innermost first ([[]] is
    the root).  The operating system resolves a path passed to it against
    the working directory [cwd] (an absolute path string); every path the
    program passes is the output of [Join], i.e. already clean, so lexical
    resolution agrees with the kernel's (no symbolic links are modelled).
    Permissions and device errors are not modelled: the only failures are
    the empty path and conflicts between files and directories.  Error
    values carry the operation, the resolved path and the errno text. *)

Definition apath := list string.

Definition os_abs (cwd p : string) : option apath :=
  if String.eqb p "" then None
  else Some (clean_stack true (if is_rooted p then p else cwd ++ "/" ++ p)).

Definition apath_eqb (a b : apath) : bool :=
  if list_eq_dec string_dec a b then true else false.

Definition render (a : apath) : string := "/" ++ String.concat "/" (rev a).

Record FS := mkFS { dirs : list apath; files : list (apath * string) }.

Definition is_dir (fs : FS) (a : apath) : bool :=
  match a with [] => true | _ => existsb (apath_eqb a) (dirs fs) end.

Fixpoint lookup_file (fl : list (apath * string)) (a : apath) : option string :=
  match fl with
  | [] => None
  | (b, c) :: fl' => if apath_eqb a b then Some c else lookup_file fl' a
  end.

Definition is_file (fs : FS) (a : apath) : bool :=
  match lookup_file (files fs) a with Some _ => true | None => false end.

Definition add_dir (fs : FS) (a : apath) : FS := mkFS (a :: dirs fs) (files fs).

Definition set_file (fs : FS) (a : apath) (c : string) : FS :=
  mkFS (dirs fs) ((a, c) :: files fs).

(** The text of an [*os.PathError].  The path is rendered resolved and
    absolute, while Go prints the path it was passed: the two agree when
    that path is absolute and clean. *)
Definition pathError (op : string) (a : apath) (msg : string) : string :=
  op ++ " " ++ render a ++ ": " ++ msg.

(** os.Stat(p) followed by [IsDir()]: the test of readRequest. *)
Definition stat_is_dir (cwd : string) (fs : FS) (p : string) : bool :=
  match os_abs cwd p with Some a => is_dir fs a | None => false end.

(** os.MkdirAll on a resolved path: succeed on a directory, fail on a
    file, otherwise create the parent and then the path itself. *)
Fixpoint mkdir_all (fs : FS) (a : apath) : FS + string :=
  if is_dir fs a then inl fs
  else if is_file fs a then inr (pathError "mkdir" a "not a directory")
  else match a with
       | [] => inl fs
       | _ :: parent =>
           match mkdir_all fs parent with
           | inl fs' => inl (add_dir fs' a)
           | inr e => inr e
           end
       end.

Definition os_MkdirAll (cwd : string) (fs : FS) (p : string) : FS + string :=
  match os_abs cwd p with
  | None => inr "mkdir : no such file or directory"
  | Some a => mkdir_all fs a
  end.

(** os.Mkdir: the parent must be a directory and the path must not exist. *)
Definition os_Mkdir (cwd : string) (fs : FS) (p : string) : FS + string :=
  match os_abs cwd p with
  | None => inr "mkdir : no such file or directory"
  | Some a =>
      if is_dir fs a || is_file fs a then inr (pathError "mkdir" a "file exists")
      else match a with
           | [] => inr (pathError "mkdir" a "file exists")
           | _ :: parent =>
               if is_dir fs parent then inl (add_dir fs a)
               else if is_file fs parent
               then inr (pathError "mkdir" a "not a directory")
               else inr (pathError "mkdir" a "no such file or directory")
           end
  end.

(** os.Create: open for writing, creating or truncating the file.  The
    result carries the resolved path of the opened file. *)
Definition os_Create (cwd : string) (fs : FS) (p : string) : (FS * apath) + string :=
  match os_abs cwd p with
  | None => inr "open : no such file or directory"
  | Some a =>
      if is_dir fs a then inr (pathError "open" a "is a directory")
      else match a with
           | [] => inr (pathError "open" a "is a directory")
           | _ :: parent =>
               if is_dir fs parent then inl (set_file fs a "", a)
               else if is_file fs parent
               then inr (pathError "open" a "not a directory")
               else inr (pathError "open" a "no such file or directory")
           end
  end.

(** file.Write(body) on the file opened at [a]. *)
Definition file_Write (fs : FS) (a : apath) (body : string) : FS :=
  set_file fs a body.

(** No regular file on [a] or any of its ancestors: [a] exists as a
    directory or [os.MkdirAll] can create it. *)
Fixpoint no_file_on (fs : FS) (a : apath) : bool :=
  negb (is_file fs a) && match a with [] => true | _ :: p => no_file_on fs p end.

(** [base] is [a] or an ancestor of [a]: [a] lies inside [base]. *)
Fixpoint within (base a : apath) : bool :=
  apath_eqb a base || match a with [] => false | _ :: p => within base p end.

(** The parent of every directory is a directory, as on a real file
    system. *)
Definition dirs_closed (fs : FS) : bool :=
  forallb (fun a => is_dir fs (tl a)) (dirs fs).

(* ------------------------------------------------------------------ *)
(** ** golang.org/x/time/rate: the token bucket

    Times are nanoseconds since the Unix epoch; Go's zero [time.Time]
    (January 1 of year 1), the initial [last] of a new limiter, is
    [zero_time].  [time.Time.Sub] saturates at the bounds of
    [time.Duration].  The branches of [reserveN] for an infinite or zero
    limit are not embedded: every limiter of the program has limit 20. *)

Definition second : Z := 1000000000.
Definition maxDuration : Z := 9223372036854775807.
Definition minDuration : Z := -9223372036854775808.
Definition zero_time : Z := -62135596800 * second.

Definition time_Sub (t u : Z) : Z := Z.max minDuration (Z.min maxDuration (t - u)).

Record Limiter := mkLimiter {
  limit : Q;      (* tokens per second *)
  burst : Z;
  tokens : Q;
  last : Z
}.

Definition NewLimiter (r : Q) (b : Z) : Limiter := mkLimiter r b 0 zero_time.

Definition tokensFromDuration (lim : Q) (d : Z) : Q :=
  if Qle_bool lim 0 then 0 else (inject_Z d / inject_Z second) * lim.

(** Durations convert to [time.Duration] by truncation; the argument is
    positive where [reserveN] uses it. *)
Definition durationFromTokens (lim : Q) (tk : Q) : Z :=
  if Qle_bool lim 0 then maxDuration
  else
    let d := (tk / lim) * inject_Z second in
    if Qle_bool d (inject_Z maxDuration) then Qfloor d else maxDuration.

Definition advance (l : Limiter) (t : Z) : Z * Q :=
  let lst := if (t <? last l)%Z then t else last l in
  let elapsed := time_Sub t lst in
  let delta := tokensFromDuration (limit l) elapsed in
  let tk := tokens l + delta in
  let tk := if Qle_bool tk (inject_Z (burst l)) then tk else inject_Z (burst l) in
  (t, tk).

Definition reserveN (l : Limiter) (t : Z) (n : Z) (maxFutureReserve : Z)
    : bool * Limiter :=
  let '(t', tk) := advance l t in
  let tk := tk - inject_Z n in
  let waitDuration := if Qle_bool 0 tk then 0%Z
                      else durationFromTokens (limit l) (- tk) in
  let ok := (n <=? burst l)%Z && (waitDuration <=? maxFutureReserve)%Z in
  if ok then (true, mkLimiter (limit l) (burst l) tk t') else (false, l).

(** [Limiter.Allow], i.e. [AllowN(time.Now(), 1)]: whether a token was
    taken, and the limiter's new state. *)
Definition Allow (l : Limiter) (now : Z) : bool * Limiter := reserveN l now 1 0.

(* ------------------------------------------------------------------ *)
(** ** Program state and requests (handler.go) *)

Definition rateLimit : Q := 20.

(** The limiter map of [ipLimitGLB]: an association list, the first entry
    of a key being its value. *)
Definition registry := list (string * Limiter).

Fixpoint reg_lookup (reg : registry) (ip : string) : option Limiter :=
  match reg with
  | [] => None
  | (k, l) :: reg' => if String.eqb ip k then Some l else reg_lookup reg' ip
  end.

Definition reg_set (reg : registry) (ip : string) (l : Limiter) : registry :=
  (ip, l) :: reg.

(** [ipLimiter.getLimiter]: the limiter of [ip], created and stored on
    first use. *)
(** Every stored limiter was made by [getLimiter]: limit 20, burst 1. *)
Definition reg_ok (reg : registry) : Prop :=
  Forall (fun e => limit (snd e) = rateLimit /\ burst (snd e) = 1%Z) reg.

Definition getLimiter (reg : registry) (ip : string) : Limiter * registry :=
  match reg_lookup reg ip with
  | Some lim => (lim, reg)
  | None => let lim := NewLimiter rateLimit 1 in (lim, reg_set reg ip lim)
  end.

Record settingsType := mkSettings { Dir : string; Ip : list string; Url : string }.

(** [ipList.contains]. *)
Definition contains (l : list string) (ip : string) : bool :=
  existsb (fun i => String.eqb i ip) l.

Record errResp := mkErrResp { Error : string }.
Record jsonResponse := mkJsonResponse { JUrl : string }.

(** The result of [io.ReadAll(r.Body)]. *)
Inductive bodyRead := BodyOk (b : string) | BodyErr (msg : string).

(** A request as the server hands it over: header keys are canonical. *)
Record Request := mkRequest {
  Method : string;
  RemoteAddr : string;
  Header : list (string * list string);
  Body : bodyRead
}.

(** [r.Header[k]]. *)
Fixpoint header_lookup (h : list (string * list string)) (k : string)
    : option (list string) :=
  match h with
  | [] => None
  | (k', v) :: h' => if String.eqb k k' then Some v else header_lookup h' k
  end.

(** [r.Header.Get(k)]. *)
Definition Header_Get (h : list (string * list string)) (k : string) : string :=
  match header_lookup h k with Some (v :: _) => v | _ => "" end.

(** What a handler writes to its [http.ResponseWriter]: JSON documents
    (one per [sendResponse]) and raw text. *)
Inductive respItem :=
| RespErr (e : errResp)
| RespUrl (j : jsonResponse)
| RespStr (s : string)
| RespRaw (s : string).

(** Lines of the process log file logs/log.log written by [loggMessage]. *)
Inductive logEntry := LogError (msg : string) | LogInfo (msg : string).

(** The process state shared by all requests. *)
Record Server := mkServer {
  fs : FS;
  limiters : registry;
  logFile : list logEntry
}.

(* ------------------------------------------------------------------ *)
(** ** getRequestError (handler.go, lines 183-222) *)

Definition notAllowed (ip : string) : errResp := mkErrResp ("IP is not allowed: " ++ ip).
Definition rateExceeded (ip : string) : errResp := mkErrResp ("Rate limit exceeded for IP: " ++ ip).
Definition onlyPost : errResp := mkErrResp "Only POST allowed".

(** Lines 190-213: the method check, the remote address, the allowlist and
    the X-Real-Ip override.  [inl eR] is an early return of [&eR];
    [inr ip] goes on to the rate limit with the identity [ip]. *)
Definition checkRequest (s : settingsType) (r : Request) : errResp + string :=
  if negb (String.eqb (Method r) "POST") then inl onlyPost
  else
    let ips := Ip s in
    match SplitHostPort (RemoteAddr r) with
    | inr err => inl (mkErrResp err)
    | inl (ip, _) =>
        if (0 <? List.length ips)%nat && negb (contains ips ip)
        then inl (notAllowed ip)
        else
          let xri := Header_Get (Header r) "X-Real-Ip" in
          if (0 <? String.length xri)%nat then
            match ParseIP xri with
            | Some rIP =>
                let ip' := IP_String rIP in
                if negb (contains ips ip') then inl (notAllowed ip') else inr ip'
            | None => inr ip
            end
          else inr ip
    end.

(** The whole function: the [*errResp] result (the [error] result is
    always nil) and the limiter map afterwards, at time [now]. *)
Definition getRequestError (s : settingsType) (r : Request) (now : Z)
    (reg : registry) : (option errResp * option string) * registry :=
  match checkRequest s r with
  | inl eR => ((Some eR, None), reg)
  | inr ip =>
      let '(lim, reg1) := getLimiter reg ip in
      let '(ok, lim') := Allow lim now in
      let reg2 := reg_set reg1 ip lim' in
      if ok then ((None, None), reg2)
      else ((Some (rateExceeded ip), None), reg2)
  end.

(* ------------------------------------------------------------------ *)
(** ** readRequest (handler.go, lines 224-273)

    Returns the error (if any), the file system afterwards and what was
    written to the response.  [cwd] is the process working directory.
    [file.Write] and [file.Close] are taken to succeed: the error that
    the deferred [file.Close] would log (lines 254-258) is not embedded. *)

Definition readRequest (s : settingsType) (cwd : string) (r : Request) (fs0 : FS)
    : option string * FS * list respItem :=
  match Body r with
  | BodyErr e => (Some e, fs0, [])
  | BodyOk body =>
      let filePth := Dir s in
      match header_lookup (Header r) "Dir" with
      | Some (d :: _) =>
          let dirPath := Join [filePth; d] in
          let mk := if stat_is_dir cwd fs0 dirPath then inl fs0
                    else os_MkdirAll cwd fs0 dirPath in
          match mk with
          | inr errDir => (Some errDir, fs0, [])
          | inl fs1 =>
              match header_lookup (Header r) "Filename" with
              | Some (fileName :: _) =>
                  let allowedFileName := PathEscape fileName in
                  let filePath := Join [filePth; d; allowedFileName] in
                  match os_Create cwd fs1 filePath with
                  | inr err => (Some err, fs1, [])
                  | inl (fs2, a) =>
                      let fs3 := file_Write fs2 a body in
                      let jsonData := mkJsonResponse
                            (Url s ++ "/" ++ d ++ "/" ++ allowedFileName) in
                      (None, fs3, [RespUrl jsonData])
                  end
              | _ => (None, fs1, [])
              end
          end
      | _ => (Some "expected Dir header", fs0, [])
      end
  end.

(* ------------------------------------------------------------------ *)
(** ** requestHandler (handler.go, lines 275-301)

    One request at time [now]: the server state afterwards and the
    response written.  Writes to the client are taken to succeed: the
    second [loggMessage] of a failing [fmt.Fprint] (lines 296-298) is not
    embedded. *)

Definition requestHandler (s : settingsType) (cwd : string) (now : Z)
    (r : Request) (st : Server) : Server * list respItem :=
  let '((eR, err), reg') := getRequestError s r now (limiters st) in
  match err with
  | Some e => (mkServer (fs st) reg' ((logFile st ++ [LogError e])%list), [])
  | None =>
      match eR with
      | Some e =>
          (mkServer (fs st) reg' ((logFile st ++ [LogError (Error e)])%list), [RespErr e])
      | None =>
          match readRequest s cwd r (fs st) with
          | (Some e, fs', out) =>
              (mkServer fs' reg' ((logFile st ++ [LogError e])%list),
               (out ++ [RespErr (mkErrResp e); RespRaw e])%list)
          | (None, fs', out) => (mkServer fs' reg' (logFile st), out)
          end
      end
  end.

(* ------------------------------------------------------------------ *)
(** ** requestHandlerOpen (handler.go, lines 303-308)

    [strings.Replace(s, old, new, -1)] for a non-empty [old]: the
    occurrences of [old] are replaced from left to right without overlap.
    (The program calls it with the constant "/okkam/files/"; the case of
    an empty [old] is not embedded.) *)





(* ------------------------------------------------------------------ *)
(** ** Start-up: readSettings, openLogFile and main (handler.go)

    [absPath] is never assigned (the assignment in [main] is commented
    out), so both files live relative to the working directory. *)

Definition absPath : string := "".

(** The settings written when settings.json is missing (lines 104-106). *)
Definition defaultSettings : settingsType :=
  mkSettings "C:/ordFiles" [] "http://127.0.0.1/okkam/files".

Definition dq : string := String (ascii_of_nat 34) "".
Definition nl : string := String (ascii_of_nat 10) "".

(** [json.MarshalIndent(defaultSettings, "", "  ")]: the field tags in
    order, the empty non-nil [ipList] as [[]], no trailing newline. *)
Definition defaultSettingsJSON : string :=
  "{" ++ nl ++
  "  " ++ dq ++ "dir" ++ dq ++ ": " ++ dq ++ "C:/ordFiles" ++ dq ++ "," ++ nl ++
  "  " ++ dq ++ "ip" ++ dq ++ ": []," ++ nl ++
  "  " ++ dq ++ "url" ++ dq ++ ": " ++ dq ++ "http://127.0.0.1/okkam/files" ++ dq ++ nl ++
  "}".

(** os.Stat: [Some isDir] when the path exists, [None] on an error. *)
Definition os_Stat (cwd : string) (fs : FS) (p : string) : option bool :=
  match os_abs cwd p with
  | None => None
  | Some a => if is_dir fs a then Some true
              else if is_file fs a then Some false else None
  end.

(** os.ReadFile: the content of a regular file. *)
Definition os_ReadFile (cwd : string) (fs : FS) (p : string) : option string :=
  match os_abs cwd p with
  | None => None
  | Some a => lookup_file (files fs) a
  end.

(** readSettings (lines 96-139) with the global [settings] passed in and
    returned.  [json_Unmarshal data old] is the value [json.Unmarshal]
    leaves in [settings], whether or not it reports an error.  The results
    of os.ReadFile, json.Unmarshal and file.Write are only returned under
    [errInfo != nil]: in the branch that reads, [errInfo] is nil, and in
    the branch that writes, the write error is nil in this model. *)
Definition readSettings (json_Unmarshal : string -> settingsType -> settingsType)
    (cwd : string) (fs0 : FS) (settings : settingsType)
    : FS * settingsType * option string :=
  let jsonFile := Join [absPath; "settings.json"] in
  match os_Stat cwd fs0 jsonFile with
  | Some false =>
      let jsonData := match os_ReadFile cwd fs0 jsonFile with
                      | Some c => c | None => "" end in
      (fs0, json_Unmarshal jsonData settings, None)
  | _ =>
      let settings := defaultSettings in
      match os_Create cwd fs0 jsonFile with
      | inr err => (fs0, settings, Some err)
      | inl (fs1, a) => (file_Write fs1 a defaultSettingsJSON, settings, None)
      end
  end.

(** os.OpenFile with O_WRONLY|O_APPEND|O_CREATE: an existing file is
    opened as it is, a missing one is created empty. *)
Definition os_OpenFile_append (cwd : string) (fs : FS) (p : string)
    : (FS * apath) + string :=
  match os_abs cwd p with
  | None => inr "open : no such file or directory"
  | Some a =>
      if is_dir fs a then inr (pathError "open" a "is a directory")
      else if is_file fs a then inl (fs, a)
      else match a with
           | [] => inr (pathError "open" a "is a directory")
           | _ :: parent =>
               if is_dir fs parent then inl (set_file fs a "", a)
               else if is_file fs parent
               then inr (pathError "open" a "not a directory")
               else inr (pathError "open" a "no such file or directory")
           end
  end.

(** A computation that may end the process with [log.Fatal]. *)
Inductive exit (A : Type) := Done (a : A) | Fatal (msg : string).
Arguments Done {A} a.
Arguments Fatal {A} msg.

(** openLogFile (lines 160-173): the file system afterwards and the
    opened file or the error of os.OpenFile. *)
Definition openLogFile (cwd : string) (fs0 : FS) (path : string)
    : exit (FS * (apath + string)) :=
  let logDir := Join [absPath; "logs"] in
  let mk := if stat_is_dir cwd fs0 logDir then inl fs0 else os_Mkdir cwd fs0 logDir in
  match mk with
  | inr err => Fatal err
  | inl fs1 =>
      match os_OpenFile_append cwd fs1 (Join [logDir; path]) with
      | inr err => Done (fs1, inr err)
      | inl (fs2, a) => Done (fs2, inl a)
      end
  end.

(** The start of main (lines 319-328), before the handlers are
    registered: the log file, then the settings; [log.Fatal()] prints an
    empty line. *)
Definition main_startup (json_Unmarshal : string -> settingsType -> settingsType)
    (cwd : string) (fs0 : FS) (settings0 : settingsType)
    : exit (FS * apath * settingsType) :=
  match openLogFile cwd fs0 "log.log" with
  | Fatal m => Fatal m
  | Done (_, inr err) => Fatal err
  | Done (fs1, inl logf) =>
      match readSettings json_Unmarshal cwd fs1 settings0 with
      | (_, _, Some _) => Fatal ""
      | (fs2, st, None) => Done (fs2, logf, st)
      end
  end.

(* ------------------------------------------------------------------ *)
(** ** The earlier revision (src/unnamed/part_000)

    Same admission code with a fixed allowlist and no length guard; the
    upload is stored under [absPath] (never assigned, so ""), the
    directory is made with os.Mkdir, the file name is used as received and
    nothing is written to the response on success. *)

Module Rev0.

Definition absPath : string := "".

Definition ips : list string := ["127.0.0.1"; "localhost"; "::1"].

(** Lines 157-183 of getRequestError. *)
Definition checkRequest (r : Request) : errResp + string :=
  if negb (String.eqb (Method r) "POST") then inl onlyPost
  else
    match SplitHostPort (RemoteAddr r) with
    | inr err => inl (mkErrResp err)
    | inl (ip, _) =>
        if negb (contains ips ip) then inl (notAllowed ip)
        else
          let xri := Header_Get (Header r) "X-Real-Ip" in
          if (0 <? String.length xri)%nat then
            match ParseIP xri with
            | Some rIP =>
                let ip' := IP_String rIP in
                if negb (contains ips ip') then inl (notAllowed ip') else inr ip'
            | None => inr ip
            end
          else inr ip
    end.

Definition getRequestError (r : Request) (now : Z) (reg : registry)
    : (option errResp * option string) * registry :=
  match checkRequest r with
  | inl eR => ((Some eR, None), reg)
  | inr ip =>
      let '(lim, reg1) := getLimiter reg ip in
      let '(ok, lim') := Allow lim now in
      let reg2 := reg_set reg1 ip lim' in
      if ok then ((None, None), reg2)
      else ((Some (rateExceeded ip), None), reg2)
  end.

(** readRequest, lines 194-238. *)
Definition readRequest (cwd : string) (r : Request) (fs0 : FS) : option string * FS :=
  match Body r with
  | BodyErr e => (Some e, fs0)
  | BodyOk body =>
      match header_lookup (Header r) "Dir" with
      | Some (d :: _) =>
          let dirPath := Join [absPath; d] in
          let mk := if stat_is_dir cwd fs0 dirPath then inl fs0
                    else os_Mkdir cwd fs0 dirPath in
          match mk with
          | inr errDir => (Some errDir, fs0)
          | inl fs1 =>
              match header_lookup (Header r) "Filename" with
              | Some (fileName :: _) =>
                  let filePath := Join [absPath; d; fileName] in
                  match os_Create cwd fs1 filePath with
                  | inr err => (Some err, fs1)
                  | inl (fs2, a) => (None, file_Write fs2 a body)
                  end
              | _ => (None, fs1)
              end
          end
      | _ => (Some "expected Dir header", fs0)
      end
  end.

(** requestHandler, lines 240-264. *)
Definition requestHandler (cwd : string) (now : Z) (r : Request) (st : Server)
    : Server * list respItem :=
  let '((eR, err), reg') := getRequestError r now (limiters st) in
  match err with
  | Some e => (mkServer (fs st) reg' ((logFile st ++ [LogError e])%list), [])
  | None =>
      match eR with
      | Some e =>
          (mkServer (fs st) reg' ((logFile st ++ [LogError (Error e)])%list), [RespErr e])
      | None =>
          match readRequest cwd r (fs st) with
          | (Some e, fs') =>
              (mkServer fs' reg' ((logFile st ++ [LogError e])%list), [RespStr e; RespRaw e])
          | (None, fs') => (mkServer fs' reg' (logFile st), [])
          end
      end
  end.

End Rev0.

(* ------------------------------------------------------------------ *)
(** ** Concrete scenarios *)

Definition srv_fs : FS := mkFS [["srv"]; ["files"; "srv"]; ["etc"]] [].

Definition upload (remote : string) (h : list (string * list string)) (body : string)
    : Request := mkRequest "POST" remote h (BodyOk body).

Definition docs_settings : settingsType :=
  mkSettings "/srv/files" ["127.0.0.1"] "http://127.0.0.1/okkam/files".

Definition t0 : Z := 1790000000 * second.

(** A server run from /srv/app that stores uploads there. *)
Definition app_fs : FS := mkFS [["srv"]; ["app"; "srv"]; ["etc"]] [].
Definition app_settings : settingsType :=
  mkSettings "/srv/app" ["127.0.0.1"] "http://127.0.0.1/okkam/files".
(** The default configuration: an empty allowlist. *)
Definition open_settings : settingsType :=
  mkSettings "/srv/files" [] "http://127.0.0.1/okkam/files".
(** A regular file where the upload directory /srv/files/docs should be. *)
Definition blocked_fs : FS :=
  mkFS [["srv"]; ["files"; "srv"]] [(["docs"; "files"; "srv"], "x")].

(* ------------------------------------------------------------------ *)
(** ** Path element predicates used by the path lemmas *)

Definition no_slash (e : string) : Prop := has_byte e "/" = false.

(** Elements kept on a relative stack: no '/', neither "" nor ".". *)
Definition kept (e : string) : Prop := no_slash e /\ e <> "" /\ e <> ".".

(** Elements kept on a rooted stack are plain names. *)
Definition name (e : string) : Prop := kept e /\ e <> "..".

(* ================================================================== *)
(** * Checks of the embedding on concrete inputs *)

Example SplitHostPort_v4 :
  SplitHostPort "127.0.0.1:5000" = inl ("127.0.0.1", "5000").
Proof. vm_compute. reflexivity. Qed.

Example SplitHostPort_v6 :
  SplitHostPort "[::1]:80" = inl ("::1", "80").
Proof. vm_compute. reflexivity. Qed.

Example SplitHostPort_noport :
  SplitHostPort "127.0.0.1" = inr "address 127.0.0.1: missing port in address".
Proof. vm_compute. reflexivity. Qed.

Example ParseIP_v4 :
  option_map IP_String (ParseIP "10.0.0.1") = Some "10.0.0.1".
Proof. vm_compute. reflexivity. Qed.

Example ParseIP_leading_zero : ParseIP "10.0.0.01" = None.
Proof. vm_compute. reflexivity. Qed.

Example ParseIP_v6 :
  option_map IP_String (ParseIP "2001:DB8:0:0:1:0:0:1") = Some "2001:db8::1:0:0:1".
Proof. vm_compute. reflexivity. Qed.

Example ParseIP_loopback6 : option_map IP_String (ParseIP "::1") = Some "::1".
Proof. vm_compute. reflexivity. Qed.

Example ParseIP_mapped :
  option_map IP_String (ParseIP "::ffff:192.168.0.1") = Some "192.168.0.1".
Proof. vm_compute. reflexivity. Qed.

Example ParseIP_zone : ParseIP "fe80::1%eth0" = None.
Proof. vm_compute. reflexivity. Qed.

Example ParseIP_trailing : option_map IP_String (ParseIP "1::") = Some "1::".
Proof. vm_compute. reflexivity. Qed.

Example PathEscape_traversal : PathEscape "../../etc/passwd" = "..%2F..%2Fetc%2Fpasswd".
Proof. vm_compute. reflexivity. Qed.

Example Join_traversal : Join ["/srv/files"; "../../x"; "a"] = "/x/a".
Proof. vm_compute. reflexivity. Qed.

Example Join_relative : Join [""; "docs"; "../../../etc/passwd"] = "../../etc/passwd".
Proof. vm_compute. reflexivity. Qed.

Example Join_dot : Join ["files"; "."; "a.txt"] = "files/a.txt".
Proof. vm_compute. reflexivity. Qed.

Example scenario_upload :
  let '(st, out) := requestHandler docs_settings "/" t0
       (upload "127.0.0.1:5000" [("Dir", ["docs"]); ("Filename", ["a.txt"])] "hello")
       (mkServer srv_fs [] []) in
  out = [RespUrl (mkJsonResponse "http://127.0.0.1/okkam/files/docs/a.txt")]
  /\ lookup_file (files (fs st)) ["a.txt"; "docs"; "files"; "srv"] = Some "hello".
Proof. vm_compute. split; reflexivity. Qed.

(* ================================================================== *)
(** * Path lemmas: [Clean] and [Join] preserve the resolved path *)

Section PathLemmas.

Lemma str_app_assoc (a b c : string) : (a ++ b) ++ c = a ++ (b ++ c).
Proof. induction a; simpl; [reflexivity | now rewrite IHa]. Qed.

Lemma str_app_empty_r (a : string) : a ++ "" = a.
Proof. induction a; simpl; [reflexivity | now rewrite IHa]. Qed.

Lemma split_slash_nonempty (s : string) : split_slash s <> [].
Proof.
  induction s as [|c s IH]; simpl; [discriminate|].
  destruct (Ascii.eqb c "/"); [discriminate|].
  destruct (split_slash s); [contradiction | discriminate].
Qed.

Lemma split_slash_app (s t : string) :
  split_slash (s ++ String "/" t) = (split_slash s ++ split_slash t)%list.
Proof.
  induction s as [|c s IH]; simpl; [reflexivity|].
  rewrite IH. destruct (Ascii.eqb c "/"); [reflexivity|].
  destruct (split_slash s) eqn:E;
    [exfalso; exact (split_slash_nonempty s E) | reflexivity].
Qed.

Lemma no_slash_cons (c : ascii) (e : string) :
  Ascii.eqb c "/" = false -> no_slash e -> no_slash (String c e).
Proof.
  unfold no_slash, has_byte; simpl. intros Hc He. rewrite Hc.
  destruct (index_byte e "/"); [discriminate | reflexivity].
Qed.

Lemma split_slash_no_slash (s : string) : Forall no_slash (split_slash s).
Proof.
  induction s as [|c s IH]; simpl; [constructor; [reflexivity | constructor]|].
  destruct (Ascii.eqb c "/") eqn:Ec; [constructor; [reflexivity | exact IH]|].
  destruct (split_slash s) as [|h t]; [constructor; [apply no_slash_cons; [exact Ec | reflexivity] | constructor]|].
  inversion IH; subst. constructor; [apply no_slash_cons; assumption | assumption].
Qed.

Lemma split_slash_single (e : string) : no_slash e -> split_slash e = [e].
Proof.
  unfold no_slash, has_byte. induction e as [|c e IH]; simpl; [reflexivity|].
  destruct (Ascii.eqb c "/"); [discriminate|].
  intro H. rewrite IH; [reflexivity|].
  destruct (index_byte e "/"); [discriminate | reflexivity].
Qed.

Lemma split_slash_concat (l : list string) :
  l <> [] -> Forall no_slash l -> split_slash (String.concat "/" l) = l.
Proof.
  induction l as [|x xs IH]; [contradiction|]. intros _ Hf. inversion Hf; subst.
  destruct xs as [|y ys]; [simpl; now apply split_slash_single|].
  change (String.concat "/" (x :: y :: ys)) with (x ++ String "/" (String.concat "/" (y :: ys))).
  rewrite split_slash_app, split_slash_single by assumption.
  rewrite IH by (discriminate || assumption). reflexivity.
Qed.

Lemma rooted_split_head (s : string) :
  is_rooted s = true -> exists t, split_slash s = "" :: t.
Proof.
  destruct s as [|c s]; simpl; [discriminate|]. intro H. rewrite H. eauto.
Qed.

Lemma clean_step_kept (r : bool) (T : list string) (x : string) :
  Forall kept T -> no_slash x -> Forall kept (clean_step r T x).
Proof.
  intros HT Hx. unfold clean_step.
  destruct (String.eqb_spec x ""); [simpl; exact HT|].
  destruct (String.eqb_spec x "."); [simpl; exact HT|]. simpl.
  destruct (String.eqb_spec x "..").
  - subst. destruct T as [|top rest].
    + destruct r; [constructor|].
      constructor; [split; [reflexivity | split; discriminate] | constructor].
    + inversion HT; subst. destruct (String.eqb top ".."); [|assumption].
      constructor; [split; [reflexivity | split; discriminate] | assumption].
  - constructor; [split; [exact Hx | split; assumption] | exact HT].
Qed.

Lemma clean_step_name (T : list string) (x : string) :
  Forall name T -> no_slash x -> Forall name (clean_step true T x).
Proof.
  intros HT Hx. unfold clean_step.
  destruct (String.eqb_spec x ""); [simpl; exact HT|].
  destruct (String.eqb_spec x "."); [simpl; exact HT|]. simpl.
  destruct (String.eqb_spec x "..").
  - destruct T as [|top rest]; [constructor|].
    inversion HT as [|? ? [_ Htop] Hrest]; subst.
    destruct (String.eqb_spec top ".."); [contradiction | exact Hrest].
  - constructor; [split; [split; [exact Hx | split; assumption] | assumption] | exact HT].
Qed.

Lemma fold_clean_kept (r : bool) (xs T : list string) :
  Forall kept T -> Forall no_slash xs ->
  Forall kept (fold_left (clean_step r) xs T).
Proof.
  revert T. induction xs as [|x xs IH]; intros T HT Hxs; simpl; [exact HT|].
  inversion Hxs; subst. apply IH; [apply clean_step_kept|]; assumption.
Qed.

Lemma fold_clean_name (xs T : list string) :
  Forall name T -> Forall no_slash xs ->
  Forall name (fold_left (clean_step true) xs T).
Proof.
  revert T. induction xs as [|x xs IH]; intros T HT Hxs; simpl; [exact HT|].
  inversion Hxs; subst. apply IH; [apply clean_step_name|]; assumption.
Qed.

Lemma clean_step_push (S : list string) (e : string) :
  name e -> clean_step true S e = e :: S.
Proof.
  intros [[_ [H1 H2]] H3]. unfold clean_step.
  destruct (String.eqb_spec e ""); [contradiction|].
  destruct (String.eqb_spec e "."); [contradiction|].
  destruct (String.eqb_spec e ".."); [contradiction|]. reflexivity.
Qed.

Lemma clean_step_skip (r : bool) (T : list string) (x : string) :
  x = "" \/ x = "." -> clean_step r T x = T.
Proof. intros [-> | ->]; reflexivity. Qed.

Lemma clean_step_other (r : bool) (T : list string) (x : string) :
  x <> "" -> x <> "." -> x <> ".." -> clean_step r T x = x :: T.
Proof.
  intros H1 H2 H3. unfold clean_step.
  destruct (String.eqb_spec x ""); [contradiction|].
  destruct (String.eqb_spec x "."); [contradiction|].
  destruct (String.eqb_spec x ".."); [contradiction|]. reflexivity.
Qed.

Lemma clean_step_dotdot (r : bool) (T : list string) :
  clean_step r T ".." =
  match T with
  | top :: rest => if String.eqb top ".." then ".." :: T else rest
  | [] => if r then [] else [".."]
  end.
Proof. reflexivity. Qed.

(** One element of a relative path, replayed on a rooted stack [S]. *)
Lemma clean_step_replay (S T : list string) (x : string) :
  Forall kept T ->
  clean_step true (fold_left (clean_step true) (rev T) S) x
  = fold_left (clean_step true) (rev (clean_step false T x)) S.
Proof.
  intro HT.
  destruct (String.eqb_spec x "") as [E|N1].
  { rewrite !(clean_step_skip _ _ x) by auto. reflexivity. }
  destruct (String.eqb_spec x ".") as [E|N2].
  { rewrite !(clean_step_skip _ _ x) by auto. reflexivity. }
  destruct (String.eqb_spec x "..") as [E|N3].
  - subst x. rewrite (clean_step_dotdot false).
    destruct T as [|top rest]; [reflexivity|].
    destruct (String.eqb_spec top "..") as [Et|Nt].
    + change (rev (".." :: top :: rest)) with (rev (top :: rest) ++ [".."])%list.
      rewrite fold_left_app. reflexivity.
    + inversion HT as [|? ? Htop Hrest]; subst.
      change (rev (top :: rest)) with (rev rest ++ [top])%list.
      rewrite fold_left_app. simpl fold_left at 1.
      rewrite (clean_step_push _ top) by (split; assumption).
      rewrite (clean_step_dotdot true).
      destruct (String.eqb_spec top ".."); [contradiction|]. reflexivity.
  - rewrite (clean_step_other false T x) by assumption.
    change (rev (x :: T)) with (rev T ++ [x])%list. rewrite fold_left_app. reflexivity.
Qed.

Lemma fold_clean_replay (xs T S : list string) :
  Forall kept T -> Forall no_slash xs ->
  fold_left (clean_step true) xs (fold_left (clean_step true) (rev T) S)
  = fold_left (clean_step true) (rev (fold_left (clean_step false) xs T)) S.
Proof.
  revert T. induction xs as [|x xs IH]; intros T HT Hxs; simpl; [reflexivity|].
  inversion Hxs; subst. rewrite clean_step_replay by exact HT.
  apply IH; [apply clean_step_kept|]; assumption.
Qed.

Lemma fold_clean_names (stk : list string) :
  Forall name stk -> fold_left (clean_step true) (rev stk) [] = stk.
Proof.
  induction stk as [|e stk IH]; intro H; [reflexivity|].
  inversion H; subst. simpl. rewrite fold_left_app, IH by assumption.
  simpl. now apply clean_step_push.
Qed.

Lemma concat_nonempty (l : list string) :
  l <> [] -> Forall kept l -> String.concat "/" l <> "".
Proof.
  intros Hl Hk E.
  assert (Hs : split_slash (String.concat "/" l) = l).
  { apply split_slash_concat; [exact Hl|]. eapply Forall_impl; [|exact Hk]. now intros ? []. }
  rewrite E in Hs. simpl in Hs. subst l. inversion Hk as [|? ? [_ [H _]] _]. now apply H.
Qed.

Lemma Forall_rev_kept (l : list string) : Forall kept l -> Forall kept (rev l).
Proof. intro H. apply Forall_rev. exact H. Qed.

Lemma fold_split_cwd (cwd p : string) :
  clean_stack true (cwd ++ String "/" p)
  = fold_left (clean_step true) (split_slash p) (clean_stack true cwd).
Proof. unfold clean_stack. rewrite split_slash_app, fold_left_app. reflexivity. Qed.

(** [Clean] does not change where the operating system resolves a path. *)
Lemma os_abs_Clean (cwd p : string) :
  p <> "" -> os_abs cwd (Clean p) = os_abs cwd p.
Proof.
  intro Hp. unfold Clean. destruct (String.eqb_spec p "") as [E|_]; [contradiction|].
  assert (Hns := split_slash_no_slash p).
  destruct (is_rooted p) eqn:Hr.
  - unfold os_abs. simpl. destruct (String.eqb_spec p "") as [E|_]; [contradiction|].
    rewrite Hr. f_equal. unfold clean_stack at 1. simpl.
    set (stk := clean_stack true p).
    assert (Hn : Forall name stk) by (apply fold_clean_name; [constructor | exact Hns]).
    destruct stk as [|e stk'] eqn:Hs; [reflexivity|].
    rewrite split_slash_concat.
    + apply fold_clean_names. exact Hn.
    + intro H. apply (f_equal (@List.length string)) in H.
      rewrite length_rev in H. discriminate.
    + apply Forall_rev. eapply Forall_impl; [|exact Hn]. now intros ? [[? _] _].
  - set (T := clean_stack false p).
    assert (Hk : Forall kept T) by (apply fold_clean_kept; [constructor | exact Hns]).
    assert (Hrep : clean_stack true (cwd ++ String "/" p)
                   = fold_left (clean_step true) (rev T) (clean_stack true cwd)).
    { rewrite fold_split_cwd.
      exact (fold_clean_replay (split_slash p) [] (clean_stack true cwd) (Forall_nil _) Hns). }
    unfold os_abs at 2. destruct (String.eqb_spec p "") as [E|_]; [contradiction|].
    rewrite Hr. simpl. rewrite Hrep.
    destruct T as [|e T'] eqn:HT.
    + simpl. unfold os_abs. simpl. rewrite fold_split_cwd. reflexivity.
    + assert (Hne : rev (e :: T') <> []).
      { intro H. apply (f_equal (@List.length string)) in H.
        rewrite length_rev in H. discriminate. }
      assert (Hkr : Forall kept (rev (e :: T'))) by (apply Forall_rev; exact Hk).
      assert (Hb := concat_nonempty _ Hne Hkr).
      destruct (String.eqb_spec (String.concat "/" (rev (e :: T'))) "") as [E|_];
        [contradiction|].
      unfold os_abs. destruct (String.eqb_spec (String.concat "/" (rev (e :: T'))) "")
        as [E|_]; [contradiction|].
      assert (Hsp : split_slash (String.concat "/" (rev (e :: T'))) = rev (e :: T')).
      { apply split_slash_concat; [exact Hne|].
        eapply Forall_impl; [|exact Hkr]. now intros ? []. }
      destruct (is_rooted (String.concat "/" (rev (e :: T')))) eqn:Hr2.
      * exfalso. destruct (rooted_split_head _ Hr2) as [t Ht]. rewrite Hsp in Ht.
        destruct (rev (e :: T')) as [|h hs] eqn:Hrv; [contradiction|].
        inversion Ht; subst. inversion Hkr as [|? ? [_ [H0 _]] _]. now apply H0.
      * change (cwd ++ "/" ++ String.concat "/" (rev (e :: T')))
          with (cwd ++ String "/" (String.concat "/" (rev (e :: T')))).
        rewrite fold_split_cwd, Hsp. reflexivity.
Qed.

Lemma is_rooted_app (x y : string) : x <> "" -> is_rooted (x ++ y) = is_rooted x.
Proof. destruct x; [contradiction | reflexivity]. Qed.

Lemma os_abs_snoc (cwd x e : string) :
  x <> "" ->
  os_abs cwd (x ++ String "/" e)
  = option_map (fold_left (clean_step true) (split_slash e)) (os_abs cwd x).
Proof.
  intro Hx. unfold os_abs.
  destruct (String.eqb_spec x "") as [E|_]; [contradiction|].
  destruct (String.eqb_spec (x ++ String "/" e) "") as [E|_].
  { destruct x; [contradiction | discriminate]. }
  rewrite is_rooted_app by exact Hx. simpl. f_equal.
  destruct (is_rooted x).
  - unfold clean_stack. rewrite split_slash_app, fold_left_app. reflexivity.
  - rewrite !fold_split_cwd, split_slash_app, fold_left_app. reflexivity.
Qed.

Lemma drop_empty_head (es : list string) (e : string) (l : list string) :
  drop_empty es = e :: l -> e <> "".
Proof.
  induction es as [|x xs IH]; simpl; [discriminate|].
  destruct (String.eqb_spec x ""); [exact IH|]. intro H. inversion H. subst. assumption.
Qed.

Lemma drop_empty_snoc (es : list string) (e : string) :
  drop_empty es <> [] -> drop_empty (es ++ [e]) = (drop_empty es ++ [e])%list.
Proof.
  induction es as [|x xs IH]; simpl; [contradiction|].
  destruct (String.eqb x ""); [exact IH | reflexivity].
Qed.

Lemma concat_snoc (l : list string) (e : string) :
  l <> [] -> String.concat "/" (l ++ [e]) = String.concat "/" l ++ String "/" e.
Proof.
  induction l as [|x xs IH]; intro H; [contradiction|].
  destruct xs as [|y ys]; [reflexivity|].
  change (String.concat "/" ((x :: y :: ys) ++ [e]))
    with (x ++ "/" ++ String.concat "/" ((y :: ys) ++ [e])).
  rewrite IH by discriminate. simpl. rewrite str_app_assoc. reflexivity.
Qed.

Lemma concat_head_nonempty (e : string) (l : list string) :
  e <> "" -> String.concat "/" (e :: l) <> "".
Proof. destruct e; [contradiction|]. destruct l; discriminate. Qed.

Lemma os_abs_Join (cwd : string) (es : list string) :
  drop_empty es <> [] ->
  os_abs cwd (Join es) = os_abs cwd (String.concat "/" (drop_empty es)).
Proof.
  intro H. unfold Join. destruct (drop_empty es) as [|e l] eqn:E; [contradiction|].
  apply os_abs_Clean. apply concat_head_nonempty. exact (drop_empty_head _ _ _ E).
Qed.

(** Joining one more element extends the resolved path by that element. *)
Lemma os_abs_Join_snoc (cwd : string) (es : list string) (e : string) :
  drop_empty es <> [] ->
  os_abs cwd (Join (es ++ [e]))
  = option_map (fold_left (clean_step true) (split_slash e)) (os_abs cwd (Join es)).
Proof.
  intro H. rewrite os_abs_Join by (rewrite drop_empty_snoc by exact H; destruct (drop_empty es); discriminate || contradiction).
  rewrite drop_empty_snoc, concat_snoc by exact H.
  destruct (drop_empty es) as [|x l] eqn:E; [contradiction|].
  rewrite os_abs_snoc by exact (concat_head_nonempty _ _ (drop_empty_head _ _ _ E)).
  rewrite os_abs_Join by (rewrite E; discriminate). rewrite E. reflexivity.
Qed.

(** url.PathEscape leaves no '/' in its result. *)
Lemma hex_upper_not_slash (d : nat) : (d < 16)%nat -> Ascii.eqb (hex_upper d) "/" = false.
Proof.
  intro H. do 16 (destruct d as [|d]; [reflexivity|]). lia.
Qed.

Lemma PathEscape_no_slash (f : string) : no_slash (PathEscape f).
Proof.
  induction f as [|c f IH]; [reflexivity|]. cbn [PathEscape].
  pose proof (nat_ascii_bounded c) as Hb.
  destruct (shouldEscapeSegment c) eqn:Hc.
  - apply no_slash_cons; [reflexivity|].
    apply no_slash_cons; [apply hex_upper_not_slash, Nat.Div0.div_lt_upper_bound; lia|].
    apply no_slash_cons; [apply hex_upper_not_slash, Nat.mod_upper_bound; lia|].
    exact IH.
  - apply no_slash_cons; [|exact IH].
    destruct (Ascii.eqb_spec c "/") as [->|]; [discriminate Hc | reflexivity].
Qed.

(** A rooted clean step by one element stays, pops or pushes it. *)
Lemma clean_step_cases (D : list string) (P : string) :
  clean_step true D P = D \/ clean_step true D P = tl D \/ clean_step true D P = P :: D.
Proof.
  unfold clean_step.
  destruct (String.eqb_spec P ""); [now left|].
  destruct (String.eqb_spec P "."); [now left|]. simpl.
  destruct (String.eqb_spec P ".."); [|now right; right].
  subst. destruct D as [|top rest]; [now left|].
  destruct (String.eqb_spec top ".."); [now right; right | now right; left].
Qed.

End PathLemmas.

(* ================================================================== *)
(** * File-system lemmas *)

Section FSLemmas.

Lemma apath_eqb_refl (a : apath) : apath_eqb a a = true.
Proof. unfold apath_eqb. destruct (list_eq_dec string_dec a a); [reflexivity | contradiction]. Qed.

Lemma apath_eqb_true (a b : apath) : apath_eqb a b = true -> a = b.
Proof. unfold apath_eqb. destruct (list_eq_dec string_dec a b); [auto | discriminate]. Qed.

Lemma is_dir_add (fs0 : FS) (a b : apath) :
  is_dir (add_dir fs0 a) b = true -> b = a \/ is_dir fs0 b = true.
Proof.
  unfold is_dir, add_dir. destruct b as [|x b]; [auto|]. simpl.
  intro H. apply orb_true_iff in H as [H|H]; [left; now apply apath_eqb_true | right; exact H].
Qed.

Lemma is_dir_add_self (fs0 : FS) (a : apath) : is_dir (add_dir fs0 a) a = true.
Proof. unfold is_dir, add_dir. destruct a; [reflexivity|]. simpl. now rewrite apath_eqb_refl. Qed.

Lemma mkdir_all_eq (fs0 : FS) (a : apath) :
  mkdir_all fs0 a =
  if is_dir fs0 a then inl fs0
  else if is_file fs0 a then inr (pathError "mkdir" a "not a directory")
  else match a with
       | [] => inl fs0
       | _ :: parent =>
           match mkdir_all fs0 parent with
           | inl fs' => inl (add_dir fs' a)
           | inr e => inr e
           end
       end.
Proof. destruct a; reflexivity. Qed.

(** [os.MkdirAll] succeeds when no regular file is in the way; it adds
    [a] and some of its ancestors as directories and touches no file. *)
Lemma mkdir_all_ok (fs0 : FS) (a : apath) :
  no_file_on fs0 a = true ->
  exists fs1, mkdir_all fs0 a = inl fs1 /\ is_dir fs1 a = true /\
    files fs1 = files fs0 /\
    (forall b, is_dir fs1 b = true -> is_dir fs0 b = true \/ exists pre, a = (pre ++ b)%list).
Proof.
  induction a as [|c p IH]; intro H.
  - exists fs0. repeat split; auto.
  - simpl in H. apply andb_true_iff in H as [Hf Hp]. apply negb_true_iff in Hf.
    rewrite mkdir_all_eq. destruct (is_dir fs0 (c :: p)) eqn:Hd.
    + exists fs0. repeat split; auto.
    + rewrite Hf. destruct (IH Hp) as (fs1 & E & _ & Hfiles & Hsub). rewrite E.
      exists (add_dir fs1 (c :: p)). repeat split.
      * apply is_dir_add_self.
      * exact Hfiles.
      * intros b Hb. apply is_dir_add in Hb as [->|Hb]; [right; now exists []|].
        destruct (Hsub b Hb) as [H0|[pre ->]]; [now left | right; now exists (c :: pre)].
Qed.

(** The directory step of [readRequest] (lines 240-245). *)
Lemma dir_ready (cwd p : string) (fs0 : FS) (D : apath) :
  os_abs cwd p = Some D -> no_file_on fs0 D = true ->
  exists fs1,
    (if stat_is_dir cwd fs0 p then inl fs0 else os_MkdirAll cwd fs0 p) = inl fs1 /\
    is_dir fs1 D = true /\ files fs1 = files fs0 /\
    (forall b, is_dir fs1 b = true -> is_dir fs0 b = true \/ exists pre, D = (pre ++ b)%list).
Proof.
  intros Ha Hn. unfold stat_is_dir, os_MkdirAll. rewrite Ha.
  destruct (is_dir fs0 D) eqn:Hd.
  - exists fs0. repeat split; auto.
  - exact (mkdir_all_ok fs0 D Hn).
Qed.

Lemma not_suffix_longer (D : apath) (x : string) (pre : apath) :
  D <> (pre ++ x :: D)%list.
Proof.
  intro H. apply (f_equal (@List.length string)) in H.
  rewrite length_app in H. simpl in H. lia.
Qed.

Lemma is_dir_add_mono (fs0 : FS) (a b : apath) :
  is_dir fs0 b = true -> is_dir (add_dir fs0 a) b = true.
Proof.
  unfold is_dir, add_dir. destruct b as [|x b]; [reflexivity|]. simpl.
  intro H. rewrite H. apply orb_true_r.
Qed.

Lemma dirs_closed_tl (fs0 : FS) (a : apath) :
  dirs_closed fs0 = true -> is_dir fs0 a = true -> is_dir fs0 (tl a) = true.
Proof.
  intros Hc Ha. destruct a as [|x p]; [reflexivity|].
  unfold is_dir in Ha. apply existsb_exists in Ha as (b & Hin & Hb).
  apply apath_eqb_true in Hb. subst b.
  unfold dirs_closed in Hc. rewrite forallb_forall in Hc. exact (Hc _ Hin).
Qed.

Lemma dirs_closed_add (fs0 : FS) (a : apath) :
  dirs_closed fs0 = true -> is_dir fs0 (tl a) = true -> dirs_closed (add_dir fs0 a) = true.
Proof.
  intros Hc Ht. unfold dirs_closed in *. simpl.
  rewrite (is_dir_add_mono _ _ _ Ht). simpl.
  apply forallb_forall. intros b Hb. apply is_dir_add_mono.
  rewrite forallb_forall in Hc. exact (Hc b Hb).
Qed.

(** A successful [os.MkdirAll] makes [a] a directory, writes no file and
    keeps parents of directories directories. *)
Lemma mkdir_all_inl (fs0 fs1 : FS) (a : apath) :
  dirs_closed fs0 = true -> mkdir_all fs0 a = inl fs1 ->
  is_dir fs1 a = true /\ files fs1 = files fs0 /\ dirs_closed fs1 = true.
Proof.
  revert fs1. induction a as [|x p IH]; intros fs1 Hc E.
  - simpl in E. inversion E; subst. auto.
  - rewrite mkdir_all_eq in E. destruct (is_dir fs0 (x :: p)) eqn:Hd.
    + inversion E; subst. auto.
    + destruct (is_file fs0 (x :: p)); [discriminate|].
      destruct (mkdir_all fs0 p) as [fs'|e] eqn:Ep; [|discriminate].
      inversion E; subst. destruct (IH fs' Hc eq_refl) as (Hp & Hf & Hc').
      split; [apply is_dir_add_self|]. split; [exact Hf|].
      apply dirs_closed_add; assumption.
Qed.

End FSLemmas.

(* ================================================================== *)
(** * Token-bucket lemmas *)

Section LimiterLemmas.

Lemma reg_ok_lookup (reg : registry) (ip : string) (l : Limiter) :
  reg_ok reg -> reg_lookup reg ip = Some l -> limit l = rateLimit /\ burst l = 1%Z.
Proof.
  induction reg as [|[k l'] reg IH]; simpl; [discriminate|].
  intros H. inversion H; subst. destruct (String.eqb ip k).
  - intro E. inversion E; subst. assumption.
  - now apply IH.
Qed.

Lemma getLimiter_ok (reg : registry) (ip : string) :
  reg_ok reg -> limit (fst (getLimiter reg ip)) = rateLimit /\ burst (fst (getLimiter reg ip)) = 1%Z.
Proof.
  intro H. unfold getLimiter. destruct (reg_lookup reg ip) eqn:E.
  - exact (reg_ok_lookup _ _ _ H E).
  - split; reflexivity.
Qed.

Lemma reg_lookup_set (reg : registry) (ip : string) (l : Limiter) :
  reg_lookup (reg_set reg ip l) ip = Some l.
Proof. simpl. now rewrite String.eqb_refl. Qed.

(** A token taken leaves at most [burst - 1] tokens, stamped at [t]. *)
Lemma Allow_taken (l l1 : Limiter) (t : Z) :
  Allow l t = (true, l1) ->
  limit l1 = limit l /\ burst l1 = burst l /\ last l1 = t /\
  tokens l1 <= inject_Z (burst l) - 1.
Proof.
  unfold Allow, reserveN, advance. cbv zeta.
  set (tk := tokens l + tokensFromDuration (limit l)
                 (time_Sub t (if (t <? last l)%Z then t else last l))).
  destruct ((1 <=? burst l)%Z && _); [|discriminate].
  intro E. inversion E; subst; clear E. simpl. repeat split.
  change (inject_Z 1) with 1.
  destruct (Qle_bool tk (inject_Z (burst l))) eqn:Hb.
  - apply Qle_bool_iff in Hb. lra.
  - lra.
Qed.

Lemma elapsed_bound (t1 t2 : Z) :
  (t2 <= t1 + 10000000)%Z ->
  (0 <= time_Sub t2 (if (t2 <? t1)%Z then t2 else t1) <= 10000000)%Z.
Proof.
  intro H. unfold time_Sub, maxDuration, minDuration.
  destruct (Z.ltb_spec t2 t1); lia.
Qed.

(** With no token left at [t1], a check at most 10ms later is refused. *)
Lemma Allow_refused (l : Limiter) (t1 t2 : Z) :
  limit l = rateLimit -> burst l = 1%Z -> last l = t1 -> tokens l <= 0 ->
  (t2 <= t1 + 10000000)%Z -> fst (Allow l t2) = false.
Proof.
  intros Hl Hb Ht Htk Hdt. unfold Allow, reserveN, advance. cbv zeta.
  rewrite Hl, Hb, Ht.
  pose proof (elapsed_bound t1 t2 Hdt) as [E0 E1].
  set (E := time_Sub t2 (if (t2 <? t1)%Z then t2 else t1)) in *.
  set (cap := if Qle_bool (tokens l + tokensFromDuration rateLimit E) (inject_Z 1)
              then tokens l + tokensFromDuration rateLimit E else inject_Z 1).
  assert (Hcap : cap <= tokens l + tokensFromDuration rateLimit E).
  { unfold cap. destruct (Qle_bool _ _) eqn:Hq; [apply Qle_refl|].
    apply Qlt_le_weak, Qnot_le_lt. intro H. apply Qle_bool_iff in H. congruence. }
  assert (Hd : tokensFromDuration rateLimit E <= 1 # 5).
  { unfold tokensFromDuration. simpl Qle_bool. cbv iota.
    unfold Qle. simpl. lia. }
  assert (Htk2 : cap - inject_Z 1 <= -(4 # 5)).
  { change (inject_Z 1) with 1. lra. }
  assert (Hz : Qle_bool 0 (cap - inject_Z 1) = false).
  { destruct (Qle_bool 0 _) eqn:Hq; [|reflexivity]. apply Qle_bool_iff in Hq. lra. }
  rewrite Hz.
  assert (Hw : (0 < durationFromTokens rateLimit (- (cap - inject_Z 1)))%Z).
  { unfold durationFromTokens. simpl Qle_bool. cbv iota zeta.
    assert (Hge : inject_Z 40000000 <= - (cap - inject_Z 1) / rateLimit * inject_Z second).
    { generalize (cap - inject_Z 1) Htk2. intros x Hx. unfold rateLimit, second.
      setoid_replace (- x / 20 * inject_Z 1000000000) with (- x * 50000000) by field.
      change (inject_Z 40000000) with (40000000 # 1). lra. }
    destruct (Qle_bool (- (cap - inject_Z 1) / rateLimit * inject_Z second)
                (inject_Z maxDuration)); [|reflexivity].
    apply Z.lt_le_trans with 40000000%Z; [lia|].
    rewrite <- (Qfloor_Z 40000000). now apply Qfloor_resp_le. }
  destruct (Z.leb_spec (durationFromTokens rateLimit (- (cap - inject_Z 1))) 0); [lia|].
  reflexivity.
Qed.

End LimiterLemmas.

(* ================================================================== *)
(** * The request pipeline: admitted and rejected requests *)

Section ProgramLemmas.

Lemma getRequestError_err_nil (s : settingsType) (r : Request) (now : Z) (reg : registry) :
  snd (fst (getRequestError s r now reg)) = None.
Proof.
  unfold getRequestError. destruct (checkRequest s r) as [eR|ip]; [reflexivity|].
  destruct (getLimiter reg ip) as [lim reg1].
  destruct (Allow lim now) as [[|] lim']; reflexivity.
Qed.

Lemma requestHandler_admitted (s : settingsType) (cwd : string) (now : Z)
    (r : Request) (st : Server) :
  fst (fst (getRequestError s r now (limiters st))) = None ->
  requestHandler s cwd now r st =
  match readRequest s cwd r (fs st) with
  | (Some e, fs', out) =>
      (mkServer fs' (snd (getRequestError s r now (limiters st)))
         ((logFile st ++ [LogError e])%list),
       (out ++ [RespErr (mkErrResp e); RespRaw e])%list)
  | (None, fs', out) =>
      (mkServer fs' (snd (getRequestError s r now (limiters st))) (logFile st), out)
  end.
Proof.
  intro H. unfold requestHandler.
  pose proof (getRequestError_err_nil s r now (limiters st)) as Hn.
  destruct (getRequestError s r now (limiters st)) as [[eR err] reg'].
  simpl in H, Hn |- *. subst. reflexivity.
Qed.

Lemma requestHandler_rejected (s : settingsType) (cwd : string) (now : Z)
    (r : Request) (st : Server) (e : errResp) :
  fst (fst (getRequestError s r now (limiters st))) = Some e ->
  requestHandler s cwd now r st =
  (mkServer (fs st) (snd (getRequestError s r now (limiters st)))
     ((logFile st ++ [LogError (Error e)])%list), [RespErr e]).
Proof.
  intro H. unfold requestHandler.
  pose proof (getRequestError_err_nil s r now (limiters st)) as Hn.
  destruct (getRequestError s r now (limiters st)) as [[eR err] reg'].
  simpl in H, Hn |- *. subst. reflexivity.
Qed.

Lemma Allow_fresh (t : Z) :
  (0 <= t)%Z -> fst (Allow (NewLimiter rateLimit 1) t) = true.
Proof.
  intro H. unfold Allow, reserveN, advance, NewLimiter. cbn [limit burst tokens last].
  replace (t <? zero_time)%Z with false
    by (symmetry; apply Z.ltb_ge; unfold zero_time, second; lia).
  replace (time_Sub t zero_time) with maxDuration
    by (unfold time_Sub, zero_time, second, maxDuration, minDuration; lia).
  reflexivity.
Qed.

Lemma ParseIP_empty : ParseIP "" = None.
Proof. reflexivity. Qed.

End ProgramLemmas.

(* ================================================================== *)
(** * The claims of the specification *)

(** C1 (code bug): with an empty allowlist the X-Real-Ip re-check still
    rejects: the request from 10.0.0.2 carrying X-Real-Ip 10.0.0.1 is
    refused with an address-not-allowed error. *)
Theorem C1_empty_allowlist_rejects_real_ip :
  getRequestError open_settings
    (upload "10.0.0.2:5000" [("X-Real-Ip", ["10.0.0.1"])] "hello") t0 []
  = ((Some (notAllowed "10.0.0.1"), None), []).
Proof. vm_compute. reflexivity. Qed.

(** C2 (code bug): in the earlier revision the file name is joined
    unescaped, so the upload with Filename ../../../etc/passwd, working
    directory /srv/app (the base), writes /etc/passwd, outside the base;
    handler.go escapes the same name and writes inside /srv/app/docs. *)
Theorem C2_rev0_filename_traversal :
  let r := upload "127.0.0.1:5000"
             [("Dir", ["docs"]); ("Filename", ["../../../etc/passwd"])] "hello" in
  let st := mkServer app_fs [] [] in
  lookup_file (files (fs (fst (Rev0.requestHandler "/srv/app" t0 r st))))
    ["passwd"; "etc"] = Some "hello"
  /\ within ["app"; "srv"] ["passwd"; "etc"] = false
  /\ lookup_file (files (fs (fst (requestHandler app_settings "/srv/app" t0 r st))))
       ["..%2F..%2F..%2Fetc%2Fpasswd"; "docs"; "app"; "srv"] = Some "hello"
  /\ within ["app"; "srv"] ["..%2F..%2F..%2Fetc%2Fpasswd"; "docs"; "app"; "srv"] = true.
Proof. vm_compute. repeat split. Qed.

(** C3: some Dir header value, namely ../../x, makes an admitted upload
    write its file outside the base directory /srv/files. *)
Theorem C3_dir_header_escapes_base :
  exists d,
    let r := upload "127.0.0.1:5000" [("Dir", [d]); ("Filename", ["a"])] "hello" in
    let st := mkServer srv_fs [] [] in
    fst (fst (getRequestError docs_settings r t0 [])) = None
    /\ lookup_file (files (fs (fst (requestHandler docs_settings "/" t0 r st))))
         ["a"; "x"] = Some "hello"
    /\ within ["files"; "srv"] ["a"; "x"] = false.
Proof. exists "../../x". vm_compute. repeat split. Qed.

(** C4 counterexample: a rejected request (GET) still writes to the file
    system: one line is appended to the log file. *)
Lemma C4_rejection_appends_log :
  let st := mkServer srv_fs [] [] in
  logFile (fst (requestHandler docs_settings "/" t0
                  (mkRequest "GET" "127.0.0.1:5000" [] (BodyOk "")) st))
  = [LogError "Only POST allowed"]
  /\ logFile st = [].
Proof. vm_compute. split; reflexivity. Qed.

(** C4 (amended): a rejected request leaves the upload tree untouched,
    sends only the rejection payload and appends one error line to the
    log file. *)
Theorem C4_rejection_skips_upload (s : settingsType) (cwd : string) (now : Z)
    (r : Request) (st : Server) (e : errResp) :
  fst (fst (getRequestError s r now (limiters st))) = Some e ->
  fs (fst (requestHandler s cwd now r st)) = fs st
  /\ snd (requestHandler s cwd now r st) = [RespErr e]
  /\ logFile (fst (requestHandler s cwd now r st))
     = (logFile st ++ [LogError (Error e)])%list.
Proof.
  intro H. rewrite (requestHandler_rejected s cwd now r st e H). repeat split.
Qed.

Lemma C4_witness :
  let st := mkServer srv_fs [] [] in
  let r := mkRequest "GET" "127.0.0.1:5000" [] (BodyOk "") in
  fst (fst (getRequestError docs_settings r t0 (limiters st))) = Some onlyPost
  /\ fs (fst (requestHandler docs_settings "/" t0 r st)) = fs st
  /\ snd (requestHandler docs_settings "/" t0 r st) = [RespErr onlyPost]
  /\ logFile (fst (requestHandler docs_settings "/" t0 r st))
     = (logFile st ++ [LogError (Error onlyPost)])%list.
Proof.
  cbv zeta. split; [vm_compute; reflexivity|].
  apply C4_rejection_skips_upload. vm_compute. reflexivity.
Defined.

(** C5 counterexample: two requests from 127.0.0.1 5ms apart; the second
    is refused with Rate limit exceeded for IP: 127.0.0.1, not with the
    message rate limit exceeded for address: 127.0.0.1. *)
Lemma C5_rate_message_differs :
  let r := upload "127.0.0.1:5000" [("Dir", ["docs"])] "hello" in
  let reg1 := snd (getRequestError docs_settings r t0 []) in
  fst (fst (getRequestError docs_settings r t0 [])) = None
  /\ fst (fst (getRequestError docs_settings r (t0 + 5000000) reg1))
     = Some (mkErrResp "Rate limit exceeded for IP: 127.0.0.1")
  /\ "Rate limit exceeded for IP: 127.0.0.1"
     <> "rate limit exceeded for address: 127.0.0.1".
Proof. vm_compute. split; [reflexivity | split; [reflexivity | discriminate]]. Qed.

(** C5 (amended): a new identity gets a bucket of rate 20 and burst 1,
    whose first check succeeds; a failed check is refused with
    Rate limit exceeded for IP: <identity>; after an admitted request a
    second one of the same identity within 10ms is refused so. *)
Theorem C5_rate_limit_bucket :
  (forall reg ip, reg_lookup reg ip = None ->
     getLimiter reg ip = (NewLimiter rateLimit 1, reg_set reg ip (NewLimiter rateLimit 1))
     /\ limit (NewLimiter rateLimit 1) = 20 /\ burst (NewLimiter rateLimit 1) = 1%Z)
  /\ (forall t, (0 <= t)%Z -> fst (Allow (NewLimiter rateLimit 1) t) = true)
  /\ (forall s r now reg ip, checkRequest s r = inr ip ->
        fst (Allow (fst (getLimiter reg ip)) now) = false ->
        fst (fst (getRequestError s r now reg)) = Some (rateExceeded ip))
  /\ (forall s r1 r2 t1 t2 reg ip, reg_ok reg ->
        checkRequest s r1 = inr ip -> checkRequest s r2 = inr ip ->
        fst (fst (getRequestError s r1 t1 reg)) = None ->
        (t2 <= t1 + 10000000)%Z ->
        fst (fst (getRequestError s r2 t2 (snd (getRequestError s r1 t1 reg))))
        = Some (rateExceeded ip)).
Proof.
  split; [|split; [|split]].
  - intros reg ip H. unfold getLimiter. rewrite H. repeat split.
  - exact Allow_fresh.
  - intros s r now reg ip Hc Ha. unfold getRequestError. rewrite Hc.
    destruct (getLimiter reg ip) as [lim reg1]. simpl in Ha.
    destruct (Allow lim now) as [ok lim']. simpl in Ha. subst ok. reflexivity.
  - intros s r1 r2 t1 t2 reg ip Hreg H1 H2 Hok Ht.
    pose proof (getLimiter_ok reg ip Hreg) as [Hl Hb].
    unfold getRequestError in *. rewrite H1 in Hok |- *. rewrite H2.
    destruct (getLimiter reg ip) as [lim reg1]. simpl in Hl, Hb.
    destruct (Allow lim t1) as [ok lim'] eqn:Ea.
    destruct ok; [|discriminate]. simpl.
    destruct (Allow_taken lim lim' t1 Ea) as (Hl' & Hb' & Ht' & Htk).
    unfold getLimiter. rewrite reg_lookup_set.
    assert (Hr : fst (Allow lim' t2) = false).
    { apply (Allow_refused lim' t1 t2); try congruence.
      rewrite Hb in Htk. change (inject_Z 1 - 1) with 0 in Htk. exact Htk. }
    destruct (Allow lim' t2) as [ok2 lim'']. simpl in Hr. subst ok2. reflexivity.
Qed.

Lemma C5_witness :
  (getLimiter [] "127.0.0.1"
   = (NewLimiter rateLimit 1, reg_set [] "127.0.0.1" (NewLimiter rateLimit 1))
   /\ limit (NewLimiter rateLimit 1) = 20 /\ burst (NewLimiter rateLimit 1) = 1%Z)
  /\ fst (Allow (NewLimiter rateLimit 1) t0) = true
  /\ fst (fst (getRequestError docs_settings
        (upload "127.0.0.1:5000" [] "") t0
        [("127.0.0.1", mkLimiter rateLimit 1 0 t0)]))
     = Some (rateExceeded "127.0.0.1")
  /\ fst (fst (getRequestError docs_settings (upload "127.0.0.1:5000" [] "")
        (t0 + 5000000)
        (snd (getRequestError docs_settings (upload "127.0.0.1:5000" [] "") t0 []))))
     = Some (rateExceeded "127.0.0.1").
Proof.
  destruct C5_rate_limit_bucket as (P1 & P2 & P3 & P4).
  split; [apply P1; reflexivity|].
  split; [apply P2; vm_compute; discriminate|].
  split; [apply P3; vm_compute; reflexivity|].
  apply P4; try (vm_compute; reflexivity).
  - constructor.
  - unfold t0, second. lia.
Defined.

(** C6 counterexample: the address 10.0.0.2, not in the allowlist
    [127.0.0.1], is refused with IP is not allowed: 10.0.0.2, not with
    address not allowed: 10.0.0.2. *)
Lemma C6_message_differs :
  fst (fst (getRequestError docs_settings (upload "10.0.0.2:5000" [] "") t0 []))
  = Some (mkErrResp "IP is not allowed: 10.0.0.2")
  /\ "IP is not allowed: 10.0.0.2" <> "address not allowed: 10.0.0.2".
Proof. vm_compute. split; [reflexivity | discriminate]. Qed.

(** C6 (amended): with a non-empty allowlist, a POST whose remote host is
    not a member, or whose X-Real-Ip address is not a member, is refused
    with IP is not allowed: <address>, naming that address, and the
    limiter map is not touched. *)
Theorem C6_allowlist_rejection (s : settingsType) (r : Request) (now : Z)
    (reg : registry) (h port : string) :
  Method r = "POST" -> SplitHostPort (RemoteAddr r) = inl (h, port) -> Ip s <> [] ->
  (contains (Ip s) h = false ->
     getRequestError s r now reg = ((Some (notAllowed h), None), reg))
  /\ (forall a, contains (Ip s) h = true ->
        ParseIP (Header_Get (Header r) "X-Real-Ip") = Some a ->
        contains (Ip s) (IP_String a) = false ->
        getRequestError s r now reg = ((Some (notAllowed (IP_String a)), None), reg)).
Proof.
  intros Hm Hs Hne. unfold getRequestError, checkRequest. rewrite Hm, Hs. simpl.
  assert (Hl : (0 <? List.length (Ip s))%nat = true).
  { destruct (Ip s); [contradiction | reflexivity]. }
  rewrite Hl. split.
  - intro Hc. rewrite Hc. reflexivity.
  - intros a Hc Hp Ha. rewrite Hc. simpl.
    destruct (Header_Get (Header r) "X-Real-Ip") as [|c x] eqn:Ex;
      [rewrite ParseIP_empty in Hp; discriminate|].
    simpl. rewrite Hp, Ha. reflexivity.
Qed.

Lemma C6_witness :
  getRequestError docs_settings (upload "10.0.0.2:5000" [] "") t0 []
  = ((Some (notAllowed "10.0.0.2"), None), [])
  /\ getRequestError docs_settings
       (upload "127.0.0.1:5000" [("X-Real-Ip", ["10.0.0.1"])] "") t0 []
     = ((Some (notAllowed (IP_String
                    [0; 0; 0; 0; 0; 0; 0; 0; 0; 0; 255; 255; 10; 0; 0; 1]%Z)), None), []).
Proof.
  split.
  - apply (proj1 (C6_allowlist_rejection docs_settings (upload "10.0.0.2:5000" [] "")
             t0 [] "10.0.0.2" "5000" eq_refl ltac:(vm_compute; reflexivity)
             ltac:(discriminate))).
    vm_compute. reflexivity.
  - apply (proj2 (C6_allowlist_rejection docs_settings
             (upload "127.0.0.1:5000" [("X-Real-Ip", ["10.0.0.1"])] "")
             t0 [] "127.0.0.1" "5000" eq_refl ltac:(vm_compute; reflexivity)
             ltac:(discriminate)) [0; 0; 0; 0; 0; 0; 0; 0; 0; 0; 255; 255; 10; 0; 0; 1]%Z);
      vm_compute; reflexivity.
Defined.

(** C7 counterexample: an admitted upload without a Dir header is answered
    with expected Dir header, not expected directory header. *)
Lemma C7_missing_dir_message :
  snd (requestHandler docs_settings "/" t0
         (upload "127.0.0.1:5000" [("Filename", ["a.txt"])] "hello")
         (mkServer srv_fs [] []))
  = [RespErr (mkErrResp "expected Dir header"); RespRaw "expected Dir header"]
  /\ "expected Dir header" <> "expected directory header".
Proof. vm_compute. split; [reflexivity | discriminate]. Qed.

(** C7 (amended): an admitted request with no Dir header (or an empty
    one) leaves the file system unchanged; when its body is read it is
    answered with the error expected Dir header. *)
Theorem C7_missing_dir_no_writes (s : settingsType) (cwd : string) (now : Z)
    (r : Request) (st : Server) :
  fst (fst (getRequestError s r now (limiters st))) = None ->
  match header_lookup (Header r) "Dir" with Some (_ :: _) => False | _ => True end ->
  fs (fst (requestHandler s cwd now r st)) = fs st
  /\ (forall b, Body r = BodyOk b ->
        snd (requestHandler s cwd now r st)
        = [RespErr (mkErrResp "expected Dir header"); RespRaw "expected Dir header"]).
Proof.
  intros Ha Hd. rewrite (requestHandler_admitted s cwd now r st Ha).
  unfold readRequest.
  destruct (Body r) as [b|e]; [|split; [reflexivity | discriminate]].
  destruct (header_lookup (Header r) "Dir") as [[|d ds]|]; try contradiction;
    split; try reflexivity; intros b' _; reflexivity.
Qed.

Lemma C7_witness :
  let r := upload "127.0.0.1:5000" [("Filename", ["a.txt"])] "hello" in
  let st := mkServer srv_fs [] [] in
  fs (fst (requestHandler docs_settings "/" t0 r st)) = fs st
  /\ (forall b, Body r = BodyOk b ->
        snd (requestHandler docs_settings "/" t0 r st)
        = [RespErr (mkErrResp "expected Dir header"); RespRaw "expected Dir header"]).
Proof.
  cbv zeta. apply C7_missing_dir_no_writes; [vm_compute; reflexivity | exact I].
Defined.

(** C8 counterexample: a GET is refused with Only POST allowed, not with
    method not allowed. *)
Lemma C8_method_message :
  fst (fst (getRequestError docs_settings
              (mkRequest "GET" "127.0.0.1:5000" [] (BodyOk "")) t0 []))
  = Some (mkErrResp "Only POST allowed")
  /\ "Only POST allowed" <> "method not allowed".
Proof. vm_compute. split; [reflexivity | discriminate]. Qed.

(** C8 (amended): a request whose method is not POST is refused with
    Only POST allowed before anything else is looked at; the limiter map
    is returned unchanged. *)
Theorem C8_method_first (s : settingsType) (r : Request) (now : Z) (reg : registry) :
  Method r <> "POST" -> getRequestError s r now reg = ((Some onlyPost, None), reg).
Proof.
  intro H. unfold getRequestError, checkRequest.
  apply String.eqb_neq in H. rewrite H. reflexivity.
Qed.

Lemma C8_witness :
  getRequestError docs_settings (mkRequest "PUT" "bad address" [] (BodyOk "")) t0
    [("127.0.0.1", NewLimiter rateLimit 1)]
  = ((Some onlyPost, None), [("127.0.0.1", NewLimiter rateLimit 1)]).
Proof. apply C8_method_first. discriminate. Defined.

(** C9: an admitted POST with Dir docs, Filename a.txt and body hello,
    whose directory <dir>/docs resolves to [D] with no regular file on the
    way, and no directory at <dir>/docs/a.txt, stores hello at
    <dir>/docs/a.txt and answers with the URL <Url>/docs/a.txt. *)
Theorem C9_upload_docs (s : settingsType) (cwd : string) (now : Z)
    (r : Request) (st : Server) (ds fns : list string) (D : apath) :
  fst (fst (getRequestError s r now (limiters st))) = None ->
  Body r = BodyOk "hello" ->
  header_lookup (Header r) "Dir" = Some ("docs" :: ds) ->
  header_lookup (Header r) "Filename" = Some ("a.txt" :: fns) ->
  os_abs cwd (Join [Dir s; "docs"]) = Some D ->
  no_file_on (fs st) D = true ->
  is_dir (fs st) ("a.txt" :: D) = false ->
  lookup_file (files (fs (fst (requestHandler s cwd now r st)))) ("a.txt" :: D)
  = Some "hello"
  /\ snd (requestHandler s cwd now r st)
     = [RespUrl (mkJsonResponse (Url s ++ "/docs/a.txt"))].
Proof.
  intros Ha Hb Hd Hf HD Hn Hx.
  rewrite (requestHandler_admitted s cwd now r st Ha).
  destruct (dir_ready cwd (Join [Dir s; "docs"]) (fs st) D HD Hn)
    as (fs1 & Hmk & Hdir & _ & Hsub).
  assert (Hx1 : is_dir fs1 ("a.txt" :: D) = false).
  { destruct (is_dir fs1 ("a.txt" :: D)) eqn:E; [|reflexivity].
    destruct (Hsub _ E) as [E'|[pre E']]; [congruence|].
    exfalso. exact (not_suffix_longer D "a.txt" pre E'). }
  assert (Hc : os_abs cwd (Join [Dir s; "docs"; "a.txt"]) = Some ("a.txt" :: D)).
  { change [Dir s; "docs"; "a.txt"] with ([Dir s; "docs"] ++ ["a.txt"])%list.
    rewrite os_abs_Join_snoc, HD.
    - reflexivity.
    - simpl. destruct (String.eqb (Dir s) ""); discriminate. }
  unfold readRequest. rewrite Hb, Hd, Hmk, Hf.
  change (PathEscape "a.txt") with "a.txt".
  unfold os_Create. rewrite Hc, Hx1, Hdir. simpl.
  rewrite apath_eqb_refl. split; reflexivity.
Qed.

Lemma C9_witness :
  let r := upload "127.0.0.1:5000" [("Dir", ["docs"]); ("Filename", ["a.txt"])] "hello" in
  let st := mkServer srv_fs [] [] in
  lookup_file (files (fs (fst (requestHandler docs_settings "/" t0 r st))))
    ["a.txt"; "docs"; "files"; "srv"] = Some "hello"
  /\ snd (requestHandler docs_settings "/" t0 r st)
     = [RespUrl (mkJsonResponse (Url docs_settings ++ "/docs/a.txt"))].
Proof.
  cbv zeta.
  apply (C9_upload_docs docs_settings "/" t0 _ _ [] []);
    vm_compute; reflexivity.
Defined.

(** C10 counterexample: with a regular file at /srv/files/docs, an
    admitted upload with Dir docs and no Filename fails: os.MkdirAll
    reports an error and the error is sent back. *)
Lemma C10_mkdir_failure :
  snd (requestHandler docs_settings "/" t0
         (upload "127.0.0.1:5000" [("Dir", ["docs"])] "hello")
         (mkServer blocked_fs [] []))
  = [RespErr (mkErrResp "mkdir /srv/files/docs: not a directory");
     RespRaw "mkdir /srv/files/docs: not a directory"].
Proof. vm_compute. reflexivity. Qed.

(** C10 (amended): an admitted POST with a readable body, a Dir header and
    no Filename header.  When no regular file lies on the way to its
    directory, it succeeds: nothing is sent, nothing is logged, no file is
    written, and the directory exists afterwards.  When os.MkdirAll fails,
    its error is sent back (as the error object and as raw text) and the
    file system is left as it was. *)
Theorem C10_no_filename_creates_dir (s : settingsType) (cwd : string) (now : Z)
    (r : Request) (st : Server) (b d : string) (ds : list string) :
  fst (fst (getRequestError s r now (limiters st))) = None ->
  Body r = BodyOk b ->
  header_lookup (Header r) "Dir" = Some (d :: ds) ->
  header_lookup (Header r) "Filename" = None ->
  (forall D : apath,
     os_abs cwd (Join [Dir s; d]) = Some D ->
     no_file_on (fs st) D = true ->
     snd (requestHandler s cwd now r st) = []
     /\ logFile (fst (requestHandler s cwd now r st)) = logFile st
     /\ files (fs (fst (requestHandler s cwd now r st))) = files (fs st)
     /\ is_dir (fs (fst (requestHandler s cwd now r st))) D = true)
  /\ (forall e : string,
        os_MkdirAll cwd (fs st) (Join [Dir s; d]) = inr e ->
        snd (requestHandler s cwd now r st) = [RespErr (mkErrResp e); RespRaw e]
        /\ fs (fst (requestHandler s cwd now r st)) = fs st).
Proof.
  intros Ha Hb Hd Hf.
  rewrite (requestHandler_admitted s cwd now r st Ha). split.
  - intros D HD Hn.
    destruct (dir_ready cwd (Join [Dir s; d]) (fs st) D HD Hn)
      as (fs1 & Hmk & Hdir & Hfiles & _).
    unfold readRequest. rewrite Hb, Hd, Hmk, Hf. simpl. auto.
  - intros e He.
    assert (Hs : stat_is_dir cwd (fs st) (Join [Dir s; d]) = false).
    { unfold stat_is_dir. unfold os_MkdirAll in He.
      destruct (os_abs cwd (Join [Dir s; d])) as [a|]; [|reflexivity].
      rewrite mkdir_all_eq in He. destruct (is_dir (fs st) a); [discriminate|reflexivity]. }
    unfold readRequest. rewrite Hb, Hd. cbv zeta. rewrite Hs, He. simpl. auto.
Qed.

Lemma C10_witness :
  let r := upload "127.0.0.1:5000" [("Dir", ["docs"])] "hello" in
  let st := mkServer srv_fs [] [] in
  let st' := mkServer blocked_fs [] [] in
  (snd (requestHandler docs_settings "/" t0 r st) = []
   /\ logFile (fst (requestHandler docs_settings "/" t0 r st)) = logFile st
   /\ files (fs (fst (requestHandler docs_settings "/" t0 r st))) = files (fs st)
   /\ is_dir (fs (fst (requestHandler docs_settings "/" t0 r st)))
        ["docs"; "files"; "srv"] = true)
  /\ (snd (requestHandler docs_settings "/" t0 r st')
      = [RespErr (mkErrResp "mkdir /srv/files/docs: not a directory");
         RespRaw "mkdir /srv/files/docs: not a directory"]
      /\ fs (fst (requestHandler docs_settings "/" t0 r st')) = fs st').
Proof.
  cbv zeta. split.
  - exact (proj1 (C10_no_filename_creates_dir docs_settings "/" t0
             (upload "127.0.0.1:5000" [("Dir", ["docs"])] "hello")
             (mkServer srv_fs [] []) "hello" "docs" [] ltac:(vm_compute; reflexivity)
             ltac:(vm_compute; reflexivity) ltac:(vm_compute; reflexivity)
             ltac:(vm_compute; reflexivity))
             ["docs"; "files"; "srv"] ltac:(vm_compute; reflexivity)
             ltac:(vm_compute; reflexivity)).
  - exact (proj2 (C10_no_filename_creates_dir docs_settings "/" t0
             (upload "127.0.0.1:5000" [("Dir", ["docs"])] "hello")
             (mkServer blocked_fs [] []) "hello" "docs" [] ltac:(vm_compute; reflexivity)
             ltac:(vm_compute; reflexivity) ltac:(vm_compute; reflexivity)
             ltac:(vm_compute; reflexivity))
             "mkdir /srv/files/docs: not a directory" ltac:(vm_compute; reflexivity)).
Defined.

(** In handler.go the file name cannot move the write out of the Dir
    directory: whatever the Filename header holds, the only path whose
    content changes is the escaped name directly inside <dir>/<Dir>. *)
Theorem readRequest_filename_confined (s : settingsType) (cwd : string) (r : Request)
    (fs0 : FS) (body d f : string) (ds fns : list string) (D : apath) :
  dirs_closed fs0 = true ->
  Body r = BodyOk body ->
  header_lookup (Header r) "Dir" = Some (d :: ds) ->
  header_lookup (Header r) "Filename" = Some (f :: fns) ->
  os_abs cwd (Join [Dir s; d]) = Some D ->
  forall a, lookup_file (files (snd (fst (readRequest s cwd r fs0)))) a
            <> lookup_file (files fs0) a ->
  a = PathEscape f :: D.
Proof.
  intros Hc Hb Hd Hf HD a Hch.
  assert (Hne : drop_empty [Dir s; d] <> []).
  { intro E. unfold Join in HD. rewrite E in HD. discriminate HD. }
  unfold readRequest in Hch. rewrite Hb, Hd in Hch. cbv zeta in Hch.
  destruct (if stat_is_dir cwd fs0 (Join [Dir s; d]) then inl fs0
            else os_MkdirAll cwd fs0 (Join [Dir s; d])) as [fs1|e] eqn:Em;
    [|contradiction].
  assert (H1 : is_dir fs1 D = true /\ files fs1 = files fs0 /\ dirs_closed fs1 = true).
  { unfold stat_is_dir, os_MkdirAll in Em. rewrite HD in Em.
    destruct (is_dir fs0 D) eqn:Hd0.
    - inversion Em; subst. auto.
    - exact (mkdir_all_inl fs0 fs1 D Hc Em). }
  destruct H1 as (Hdir & Hfiles & Hc1).
  rewrite Hf in Hch.
  assert (Hp : os_abs cwd (Join [Dir s; d; PathEscape f])
               = Some (clean_step true D (PathEscape f))).
  { change [Dir s; d; PathEscape f] with ([Dir s; d] ++ [PathEscape f])%list.
    rewrite os_abs_Join_snoc, HD by exact Hne. simpl.
    rewrite split_slash_single by apply PathEscape_no_slash. reflexivity. }
  unfold os_Create in Hch. rewrite Hp in Hch.
  destruct (clean_step_cases D (PathEscape f)) as [E|[E|E]]; rewrite E in Hch.
  - rewrite Hdir in Hch. simpl in Hch. rewrite Hfiles in Hch. contradiction.
  - rewrite (dirs_closed_tl fs1 D Hc1 Hdir) in Hch. simpl in Hch.
    rewrite Hfiles in Hch. contradiction.
  - destruct (is_dir fs1 (PathEscape f :: D)); [simpl in Hch; rewrite Hfiles in Hch; contradiction|].
    rewrite Hdir in Hch. simpl in Hch.
    destruct (apath_eqb a (PathEscape f :: D)) eqn:Ea; [now apply apath_eqb_true|].
    rewrite Hfiles in Hch. contradiction.
Qed.

Lemma readRequest_filename_confined_witness :
  let r := upload "127.0.0.1:5000"
             [("Dir", ["docs"]); ("Filename", ["../../../etc/passwd"])] "hello" in
  ["..%2F..%2F..%2Fetc%2Fpasswd"; "docs"; "app"; "srv"]
  = PathEscape "../../../etc/passwd" :: ["docs"; "app"; "srv"].
Proof.
  cbv zeta.
  apply (readRequest_filename_confined app_settings "/srv/app"
           (upload "127.0.0.1:5000"
              [("Dir", ["docs"]); ("Filename", ["../../../etc/passwd"])] "hello")
           app_fs "hello" "docs" "../../../etc/passwd" [] []);
    vm_compute; try reflexivity; discriminate.
Defined.

(* ================================================================== *)
(** * Further properties of the admission pipeline *)

Section AdmissionLemmas.

Lemma reg_lookup_set_other (reg : registry) (ip ip' : string) (l : Limiter) :
  ip' <> ip -> reg_lookup (reg_set reg ip l) ip' = reg_lookup reg ip'.
Proof. intro H. simpl. apply String.eqb_neq in H. now rewrite H. Qed.

Lemma Allow_keeps (l l' : Limiter) (t : Z) (ok : bool) :
  Allow l t = (ok, l') -> limit l' = limit l /\ burst l' = burst l.
Proof.
  unfold Allow, reserveN. destruct (advance l t) as [t' tk]. cbv zeta.
  destruct (_ && _); intro E; inversion E; subst; auto.
Qed.

(** A taken token leaves less than one token-worth of 1ns of debt. *)
Lemma Allow_taken_lower (l l1 : Limiter) (t : Z) :
  limit l = rateLimit -> Allow l t = (true, l1) -> -(1 # 50000000) < tokens l1.
Proof.
  intro Hl. unfold Allow, reserveN. destruct (advance l t) as [t' tk]. cbv zeta.
  rewrite Hl.
  destruct (Qle_bool 0 (tk - inject_Z 1)) eqn:Hz.
  - destruct (_ && _); [|discriminate]. intro E. inversion E; subst. simpl.
    apply Qle_bool_iff in Hz. lra.
  - destruct (1 <=? burst l)%Z; simpl; [|discriminate].
    destruct (durationFromTokens rateLimit (- (tk - inject_Z 1)) <=? 0)%Z eqn:Hw;
      [|discriminate].
    intro E. inversion E; subst. simpl. apply Z.leb_le in Hw.
    unfold durationFromTokens in Hw.
    replace (Qle_bool rateLimit 0) with false in Hw by reflexivity. cbv zeta in Hw.
    destruct (Qle_bool (- (tk - inject_Z 1) / rateLimit * inject_Z second)
                (inject_Z maxDuration)); [|unfold maxDuration in Hw; lia].
    pose proof (Qlt_floor (- (tk - inject_Z 1) / rateLimit * inject_Z second)) as Hf.
    assert (H1 : inject_Z (Qfloor (- (tk - inject_Z 1) / rateLimit * inject_Z second) + 1)
                 <= inject_Z 1) by (rewrite <- Zle_Qle; lia).
    revert Hf H1. generalize (Qfloor (- (tk - inject_Z 1) / rateLimit * inject_Z second)).
    intros z Hf H1. unfold rateLimit, second in Hf.
    setoid_replace (- (tk - inject_Z 1) / 20 * inject_Z 1000000000)
      with ((1 - tk) * 50000000) in Hf by (change (inject_Z 1) with 1; field).
    change (inject_Z 1) with 1 in *. lra.
Qed.

(** With at most that debt, the token is back 50ms after the last take. *)
Lemma Allow_refill (l : Limiter) (t1 t2 : Z) :
  limit l = rateLimit -> burst l = 1%Z -> last l = t1 -> -(1 # 50000000) < tokens l ->
  (t1 + 50000000 <= t2)%Z -> fst (Allow l t2) = true.
Proof.
  intros Hl Hb Ht Htk Hdt. unfold Allow, reserveN, advance. cbv zeta.
  rewrite Hl, Hb, Ht.
  replace (t2 <? t1)%Z with false by (symmetry; apply Z.ltb_ge; lia).
  assert (E0 : (50000000 <= time_Sub t2 t1)%Z)
    by (unfold time_Sub, maxDuration, minDuration; lia).
  set (E := time_Sub t2 t1) in *.
  assert (Hd : 1 <= tokensFromDuration rateLimit E).
  { unfold tokensFromDuration. simpl Qle_bool. cbv iota. unfold Qle. simpl. lia. }
  set (cap := if Qle_bool (tokens l + tokensFromDuration rateLimit E) (inject_Z 1)
              then tokens l + tokensFromDuration rateLimit E else inject_Z 1).
  assert (Hcap : 1 - (1 # 50000000) < cap).
  { unfold cap. destruct (Qle_bool _ _); change (inject_Z 1) with 1; lra. }
  assert (Hcap1 : cap <= 1).
  { unfold cap. destruct (Qle_bool _ _) eqn:Hq; [|change (inject_Z 1) with 1; lra].
    apply Qle_bool_iff in Hq. exact Hq. }
  destruct (Qle_bool 0 (cap - inject_Z 1)) eqn:Hz; [reflexivity|].
  unfold durationFromTokens.
  replace (Qle_bool rateLimit 0) with false by reflexivity. cbv zeta.
  assert (Hlt : - (cap - inject_Z 1) / rateLimit * inject_Z second < 1).
  { unfold rateLimit, second.
    setoid_replace (- (cap - inject_Z 1) / 20 * inject_Z 1000000000)
      with ((1 - cap) * 50000000) by (change (inject_Z 1) with 1; field). lra. }
  assert (Hle : Qle_bool (- (cap - inject_Z 1) / rateLimit * inject_Z second)
                  (inject_Z maxDuration) = true).
  { apply Qle_bool_iff. apply Qle_trans with 1; [now apply Qlt_le_weak|].
    unfold Qle, maxDuration. simpl. lia. }
  rewrite Hle.
  pose proof (Qfloor_le (- (cap - inject_Z 1) / rateLimit * inject_Z second)) as Hf.
  assert (Hz0 : (Qfloor (- (cap - inject_Z 1) / rateLimit * inject_Z second) <= 0)%Z).
  { assert (Hq : inject_Z (Qfloor (- (cap - inject_Z 1) / rateLimit * inject_Z second))
                 < inject_Z 1) by (eapply Qle_lt_trans; eassumption).
    rewrite <- Zlt_Qlt in Hq. lia. }
  apply Z.leb_le in Hz0. rewrite Hz0. reflexivity.
Qed.

(** With no token left at [t1], any check less than 50ms later is refused. *)
Lemma Allow_window_refused (l : Limiter) (t1 t2 : Z) :
  limit l = rateLimit -> burst l = 1%Z -> last l = t1 -> tokens l <= 0 ->
  (t2 < t1 + 50000000)%Z -> fst (Allow l t2) = false.
Proof.
  intros Hl Hb Ht Htk Hdt. unfold Allow, reserveN, advance. cbv zeta.
  rewrite Hl, Hb, Ht.
  assert (HE : (0 <= time_Sub t2 (if (t2 <? t1)%Z then t2 else t1) <= 49999999)%Z).
  { unfold time_Sub, maxDuration, minDuration. destruct (Z.ltb_spec t2 t1); lia. }
  set (E := time_Sub t2 (if (t2 <? t1)%Z then t2 else t1)) in *.
  set (cap := if Qle_bool (tokens l + tokensFromDuration rateLimit E) (inject_Z 1)
              then tokens l + tokensFromDuration rateLimit E else inject_Z 1).
  assert (Hcap : cap <= tokens l + tokensFromDuration rateLimit E).
  { unfold cap. destruct (Qle_bool _ _) eqn:Hq; [apply Qle_refl|].
    apply Qlt_le_weak, Qnot_le_lt. intro H. apply Qle_bool_iff in H. congruence. }
  assert (Hd : tokensFromDuration rateLimit E <= 49999999 # 50000000).
  { unfold tokensFromDuration. simpl Qle_bool. cbv iota.
    unfold Qle. simpl. lia. }
  assert (Htk2 : cap - inject_Z 1 <= -(1 # 50000000)).
  { change (inject_Z 1) with 1. lra. }
  assert (Hz : Qle_bool 0 (cap - inject_Z 1) = false).
  { destruct (Qle_bool 0 _) eqn:Hq; [|reflexivity]. apply Qle_bool_iff in Hq. lra. }
  rewrite Hz.
  assert (Hw : (0 < durationFromTokens rateLimit (- (cap - inject_Z 1)))%Z).
  { unfold durationFromTokens. simpl Qle_bool. cbv iota zeta.
    assert (Hge : inject_Z 1 <= - (cap - inject_Z 1) / rateLimit * inject_Z second).
    { generalize (cap - inject_Z 1) Htk2. intros x Hx. unfold rateLimit, second.
      setoid_replace (- x / 20 * inject_Z 1000000000) with (- x * 50000000) by field.
      change (inject_Z 1) with 1. lra. }
    destruct (Qle_bool (- (cap - inject_Z 1) / rateLimit * inject_Z second)
                (inject_Z maxDuration)); [|reflexivity].
    apply Z.lt_le_trans with 1%Z; [lia|].
    rewrite <- (Qfloor_Z 1). now apply Qfloor_resp_le. }
  destruct (Z.leb_spec (durationFromTokens rateLimit (- (cap - inject_Z 1))) 0); [lia|].
  reflexivity.
Qed.

End AdmissionLemmas.

(** checkRequest: once the remote host passes the allowlist (or the list
    is empty), the identity is the remote host when X-Real-Ip is absent or
    does not parse as an IP address, and the canonical form of the
    X-Real-Ip address when it parses and is on the list. *)
Theorem checkRequest_identity (s : settingsType) (r : Request) (h port : string) :
  Method r = "POST" -> SplitHostPort (RemoteAddr r) = inl (h, port) ->
  (Ip s = [] \/ contains (Ip s) h = true) ->
  (ParseIP (Header_Get (Header r) "X-Real-Ip") = None -> checkRequest s r = inr h)
  /\ (forall a, ParseIP (Header_Get (Header r) "X-Real-Ip") = Some a ->
        contains (Ip s) (IP_String a) = true -> checkRequest s r = inr (IP_String a)).
Proof.
  intros Hm Hs Hin. unfold checkRequest. rewrite Hm, Hs. simpl.
  assert (Hg : ((0 <? List.length (Ip s))%nat && negb (contains (Ip s) h)) = false).
  { destruct Hin as [E|E]; rewrite E; [reflexivity|]. apply andb_false_r. }
  rewrite Hg.
  destruct (Header_Get (Header r) "X-Real-Ip") as [|c x] eqn:Ex.
  - split; [reflexivity|]. intros a Hp. rewrite ParseIP_empty in Hp. discriminate.
  - simpl. split.
    + intro Hp. rewrite Hp. reflexivity.
    + intros a Hp Ha. rewrite Hp, Ha. reflexivity.
Qed.

Lemma checkRequest_identity_witness :
  checkRequest docs_settings
    (upload "127.0.0.1:5000" [("X-Real-Ip", ["10.0.0.01"])] "") = inr "127.0.0.1"
  /\ checkRequest docs_settings
       (upload "127.0.0.1:5000" [("X-Real-Ip", ["127.0.0.1"])] "")
     = inr (IP_String [0; 0; 0; 0; 0; 0; 0; 0; 0; 0; 255; 255; 127; 0; 0; 1]%Z).
Proof.
  split.
  - apply (proj1 (checkRequest_identity docs_settings
             (upload "127.0.0.1:5000" [("X-Real-Ip", ["10.0.0.01"])] "")
             "127.0.0.1" "5000" eq_refl ltac:(vm_compute; reflexivity)
             ltac:(right; vm_compute; reflexivity))).
    vm_compute. reflexivity.
  - apply (proj2 (checkRequest_identity docs_settings
             (upload "127.0.0.1:5000" [("X-Real-Ip", ["127.0.0.1"])] "")
             "127.0.0.1" "5000" eq_refl ltac:(vm_compute; reflexivity)
             ltac:(right; vm_compute; reflexivity)));
      vm_compute; reflexivity.
Defined.

(** getRequestError changes the limiter of the request's identity only:
    the limiters of all other addresses, and all limiters when the request
    is turned away before the rate limit, stay as they were. *)
Theorem getRequestError_other_limiters (s : settingsType) (r : Request) (now : Z)
    (reg : registry) (ip' : string) :
  checkRequest s r <> inr ip' ->
  reg_lookup (snd (getRequestError s r now reg)) ip' = reg_lookup reg ip'.
Proof.
  intro H. unfold getRequestError.
  destruct (checkRequest s r) as [e|ip]; [reflexivity|].
  assert (Hne : ip' <> ip) by (intro E; subst; contradiction).
  unfold getLimiter. destruct (reg_lookup reg ip) as [lim|] eqn:El.
  - destruct (Allow lim now) as [[|] lim']; cbn [fst snd];
      now apply reg_lookup_set_other.
  - destruct (Allow (NewLimiter rateLimit 1) now) as [[|] lim']; cbn [fst snd];
      rewrite reg_lookup_set_other by exact Hne; now apply reg_lookup_set_other.
Qed.

Lemma getRequestError_other_limiters_witness :
  reg_lookup (snd (getRequestError docs_settings (upload "127.0.0.1:5000" [] "") t0
                     [("10.0.0.9", mkLimiter rateLimit 1 0 t0)])) "10.0.0.9"
  = reg_lookup [("10.0.0.9", mkLimiter rateLimit 1 0 t0)] "10.0.0.9".
Proof.
  apply getRequestError_other_limiters. vm_compute. discriminate.
Defined.

(** Every limiter in the map of ipLimitGLB has rate 20 and burst 1, and
    getRequestError keeps it so. *)
Theorem getRequestError_reg_ok (s : settingsType) (r : Request) (now : Z) (reg : registry) :
  reg_ok reg -> reg_ok (snd (getRequestError s r now reg)).
Proof.
  intro H. unfold getRequestError.
  destruct (checkRequest s r) as [e|ip]; [exact H|].
  pose proof (getLimiter_ok reg ip H) as [Hl Hb].
  assert (Hreg1 : reg_ok (snd (getLimiter reg ip))).
  { unfold getLimiter. destruct (reg_lookup reg ip); [exact H|].
    constructor; [split; reflexivity | exact H]. }
  destruct (getLimiter reg ip) as [lim reg1]. simpl in Hl, Hb, Hreg1.
  destruct (Allow lim now) as [ok lim'] eqn:Ea.
  destruct (Allow_keeps lim lim' now ok Ea) as [Hl' Hb'].
  destruct ok; simpl; constructor; simpl; try split; congruence || exact Hreg1.
Qed.

Lemma getRequestError_reg_ok_witness :
  reg_ok (snd (getRequestError docs_settings (upload "127.0.0.1:5000" [] "") t0 [])).
Proof. apply getRequestError_reg_ok. constructor. Defined.

(** After an admitted request of an identity at [t1], the next request of
    that identity at [t2] is rejected with "Rate limit exceeded for IP:
    <identity>" when [t2] is less than 49ms after [t1], and admitted when
    [t2] is at least 51ms after [t1] (the bucket of burst 1 refills at 20
    tokens/s, one token in 50ms).  The 1ms margins, a fiftieth of a token,
    leave the outcome independent of how the limiter rounds its token count
    (float64 in x/time/rate, exact rationals here): only times within
    nanoseconds of the 50ms boundary are sensitive to it. *)
Theorem getRequestError_next_request (s : settingsType) (r1 r2 : Request) (t1 t2 : Z)
    (reg : registry) (ip : string) :
  reg_ok reg -> checkRequest s r1 = inr ip -> checkRequest s r2 = inr ip ->
  fst (fst (getRequestError s r1 t1 reg)) = None ->
  ((t2 < t1 + 49000000)%Z ->
   fst (fst (getRequestError s r2 t2 (snd (getRequestError s r1 t1 reg))))
   = Some (rateExceeded ip))
  /\ ((t1 + 51000000 <= t2)%Z ->
      fst (fst (getRequestError s r2 t2 (snd (getRequestError s r1 t1 reg)))) = None).
Proof.
  intros Hreg H1 H2 Hok.
  pose proof (getLimiter_ok reg ip Hreg) as [Hl Hb].
  unfold getRequestError in *. rewrite H1 in Hok |- *. rewrite H2.
  destruct (getLimiter reg ip) as [lim reg1]. simpl in Hl, Hb.
  destruct (Allow lim t1) as [ok lim'] eqn:Ea.
  destruct ok; [|discriminate]. simpl.
  destruct (Allow_taken lim lim' t1 Ea) as (Hl' & Hb' & Ht' & Htk').
  pose proof (Allow_taken_lower lim lim' t1 Hl Ea) as Hlow.
  unfold getLimiter. rewrite reg_lookup_set. split; intro Ht.
  - assert (Hr : fst (Allow lim' t2) = false).
    { apply (Allow_window_refused lim' t1 t2); try congruence; try lia.
      rewrite Hb in Htk'. change (inject_Z 1) with 1 in Htk'. lra. }
    destruct (Allow lim' t2) as [ok2 lim'']. simpl in Hr. subst ok2. reflexivity.
  - assert (Hr : fst (Allow lim' t2) = true).
    { apply (Allow_refill lim' t1 t2); try congruence; try assumption; lia. }
    destruct (Allow lim' t2) as [ok2 lim'']. simpl in Hr. subst ok2. reflexivity.
Qed.

Lemma getRequestError_next_request_witness :
  fst (fst (getRequestError docs_settings (upload "127.0.0.1:5000" [] "")
              (t0 + 48999999)
              (snd (getRequestError docs_settings (upload "127.0.0.1:5000" [] "") t0 []))))
  = Some (rateExceeded "127.0.0.1")
  /\ fst (fst (getRequestError docs_settings (upload "127.0.0.1:5000" [] "")
                 (t0 + 51000000)
                 (snd (getRequestError docs_settings (upload "127.0.0.1:5000" [] "") t0 []))))
     = None.
Proof.
  split.
  - exact (proj1 (getRequestError_next_request docs_settings
             (upload "127.0.0.1:5000" [] "") (upload "127.0.0.1:5000" [] "") t0 (t0 + 48999999) []
             "127.0.0.1" ltac:(constructor) ltac:(vm_compute; reflexivity)
             ltac:(vm_compute; reflexivity) ltac:(vm_compute; reflexivity)) ltac:(lia)).
  - exact (proj2 (getRequestError_next_request docs_settings
             (upload "127.0.0.1:5000" [] "") (upload "127.0.0.1:5000" [] "") t0 (t0 + 51000000) []
             "127.0.0.1" ltac:(constructor) ltac:(vm_compute; reflexivity)
             ltac:(vm_compute; reflexivity) ltac:(vm_compute; reflexivity)) ltac:(lia)).
Defined.

(* ================================================================== *)
(** * Byte-string lemmas *)

Section StringLemmas.

Local Open Scope nat_scope.

Lemma str_length_app (s t : string) :
  String.length (s ++ t) = String.length s + String.length t.
Proof. induction s; simpl; auto. Qed.

Lemma substring_all (t : string) : substring 0 (String.length t) t = t.
Proof. induction t; simpl; congruence. Qed.

Lemma substring_app_l (s t : string) : substring 0 (String.length s) (s ++ t) = s.
Proof. induction s; simpl; [destruct t; reflexivity | congruence]. Qed.

Lemma drop_cons (k : nat) (c : ascii) (x : string) : drop (S k) (String c x) = drop k x.
Proof. reflexivity. Qed.

Lemma drop_0 (x : string) : drop 0 x = x.
Proof. unfold drop. rewrite Nat.sub_0_r. apply substring_all. Qed.

Lemma drop_app_add (s t : string) (k : nat) :
  drop (String.length s + k) (s ++ t) = drop k t.
Proof. induction s; simpl; [reflexivity | rewrite drop_cons; exact IHs]. Qed.


Lemma index_byte_app (s t : string) (c : ascii) :
  index_byte (s ++ t) c =
  match index_byte s c with
  | Some i => Some i
  | None => option_map (Nat.add (String.length s)) (index_byte t c)
  end.
Proof.
  induction s as [|a s IH]; simpl.
  - destruct (index_byte t c); reflexivity.
  - destruct (Ascii.eqb a c); [reflexivity|]. rewrite IH.
    destruct (index_byte s c); simpl; [reflexivity|].
    destruct (index_byte t c); reflexivity.
Qed.

Lemma has_byte_app (s t : string) (c : ascii) :
  has_byte (s ++ t) c = has_byte s c || has_byte t c.
Proof.
  unfold has_byte. rewrite index_byte_app.
  destruct (index_byte s c); [reflexivity|]. destruct (index_byte t c); reflexivity.
Qed.

Lemma has_byte_cons (a : ascii) (s : string) (c : ascii) :
  has_byte (String a s) c = Ascii.eqb a c || has_byte s c.
Proof.
  unfold has_byte. simpl. destruct (Ascii.eqb a c); [reflexivity|].
  destruct (index_byte s c); reflexivity.
Qed.

Lemma index_byte_none (s : string) (c : ascii) :
  has_byte s c = false -> index_byte s c = None.
Proof. unfold has_byte. destruct (index_byte s c); congruence. Qed.

Lemma last_index_none (s : string) (c : ascii) :
  has_byte s c = false -> last_index_byte s c = None.
Proof.
  induction s as [|a s IH]; simpl; [reflexivity|]. intro H.
  rewrite has_byte_cons in H. apply orb_false_iff in H as [H1 H2].
  rewrite IH by exact H2. now rewrite H1.
Qed.

Lemma last_index_byte_app (s t : string) (c : ascii) :
  last_index_byte (s ++ t) c =
  match last_index_byte t c with
  | Some i => Some (String.length s + i)
  | None => last_index_byte s c
  end.
Proof.
  induction s as [|a s IH]; simpl.
  - destruct (last_index_byte t c); reflexivity.
  - rewrite IH. destruct (last_index_byte t c); reflexivity.
Qed.



Lemma hex_upper_nat (d : nat) :
  d < 16 -> nat_of_ascii (hex_upper d) = if (d <? 10)%nat then 48 + d else 55 + d.
Proof.
  intro H. unfold hex_upper. destruct (d <? 10)%nat eqn:E; apply nat_ascii_embedding;
    rewrite ?Nat.ltb_lt, ?Nat.ltb_ge in E; lia.
Qed.

Lemma hex_upper_inj (d1 d2 : nat) :
  d1 < 16 -> d2 < 16 -> hex_upper d1 = hex_upper d2 -> d1 = d2.
Proof.
  intros H1 H2 E. apply (f_equal nat_of_ascii) in E.
  rewrite !hex_upper_nat in E by assumption.
  destruct (d1 <? 10)%nat eqn:E1, (d2 <? 10)%nat eqn:E2; cbn iota in E;
    rewrite ?Nat.ltb_lt, ?Nat.ltb_ge in E1; rewrite ?Nat.ltb_lt, ?Nat.ltb_ge in E2; lia.
Qed.

End StringLemmas.

(** net.SplitHostPort inverts the joining of a host and a port: for a
    host and port free of ':', '[' and ']', "host:port" splits back into
    them, and for a host free of brackets (an IPv6 literal may contain
    ':'), "[host]:port" does. *)
Theorem SplitHostPort_join (h p : string) :
  has_byte p ":" = false -> has_byte p "[" = false -> has_byte p "]" = false ->
  has_byte h "[" = false -> has_byte h "]" = false ->
  (has_byte h ":" = false -> SplitHostPort (h ++ ":" ++ p) = inl (h, p))
  /\ SplitHostPort ("[" ++ h ++ "]:" ++ p) = inl (h, p).
Proof.
  intros Hp1 Hp2 Hp3 Hh2 Hh3. split.
  - intro Hh1. change (":" ++ p) with (String ":" p). unfold SplitHostPort.
    rewrite last_index_byte_app. cbn [last_index_byte].
    rewrite last_index_none by exact Hp1.
    change ((":" =? ":")%char) with true. cbn iota beta. rewrite Nat.add_0_r.
    replace (match get 0 (h ++ String ":" p) with
             | Some c => Ascii.eqb c "[" | None => false end) with false.
    2:{ destruct h as [|a h]; [reflexivity|]. simpl.
        rewrite has_byte_cons in Hh2. apply orb_false_iff in Hh2 as [E _].
        now rewrite E. }
    cbn iota beta. unfold take. rewrite substring_app_l, Hh1. cbn iota beta.
    rewrite drop_0, !has_byte_app, !has_byte_cons, Hh2, Hh3, Hp2, Hp3. cbn -[drop].
    replace (S (String.length h)) with (String.length h + 1)%nat by lia.
    rewrite drop_app_add, drop_cons, drop_0. reflexivity.
  - change ("[" ++ h ++ "]:" ++ p) with (String "[" (h ++ String "]" (String ":" p))).
    unfold SplitHostPort. cbn [last_index_byte].
    rewrite last_index_byte_app. cbn [last_index_byte].
    rewrite last_index_none by exact Hp1.
    change ((":" =? ":")%char) with true. change (("]" =? ":")%char) with false.
    cbn iota beta.
    change (get 0 (String "[" (h ++ String "]" (String ":" p)))) with (Some "["%char).
    change (("[" =? "[")%char) with true. cbn iota beta.
    change (index_byte (String "[" (h ++ String "]" (String ":" p))) "]")
      with (if ("[" =? "]")%char then Some 0%nat else
              option_map S (index_byte (h ++ String "]" (String ":" p)) "]")).
    change (("[" =? "]")%char) with false. cbn iota beta.
    rewrite index_byte_app, (index_byte_none h "]" Hh3).
    change (index_byte (String "]" (String ":" p)) "]") with (Some 0%nat).
    cbn iota beta. cbn [option_map]. rewrite Nat.add_0_r.
    replace (S (S (String.length h)) =?
             String.length (String "[" (h ++ String "]" (String ":" p))))%nat
      with false.
    2:{ symmetry. apply Nat.eqb_neq. cbn [String.length]. rewrite str_length_app.
        cbn [String.length]. lia. }
    replace (S (S (String.length h)) =? S (String.length h + 1))%nat with true
      by (symmetry; apply Nat.eqb_eq; lia).
    cbn iota beta.
    unfold slice. cbn [substring]. change (("[" =? "[")%char) with true. cbn iota beta.
    replace (S (String.length h) - 1)%nat with (String.length h) by lia.
    rewrite substring_app_l.
    rewrite drop_cons, drop_0.
    rewrite has_byte_app, has_byte_cons, has_byte_cons, Hh2, Hp2. cbn -[drop].
    rewrite drop_cons.
    replace (S (String.length h)) with (String.length h + 1)%nat by lia.
    rewrite drop_app_add, drop_cons, drop_0, has_byte_cons, Hp3. cbn -[drop].
    replace (S (String.length h + 1)) with (String.length h + 2)%nat by lia.
    rewrite drop_cons, drop_app_add, drop_cons, drop_cons, drop_0. reflexivity.
Qed.

Lemma SplitHostPort_join_witness :
  SplitHostPort ("127.0.0.1" ++ ":" ++ "5000") = inl ("127.0.0.1", "5000")
  /\ SplitHostPort ("[" ++ "::1" ++ "]:" ++ "80") = inl ("::1", "80").
Proof.
  split.
  - apply (SplitHostPort_join "127.0.0.1" "5000"); reflexivity.
  - apply (SplitHostPort_join "::1" "80"); reflexivity.
Defined.

(** url.PathEscape, which readRequest applies to the Filename header, is
    injective: two different file names are stored under two different
    names, so uploads with different names never overwrite each other. *)
Theorem PathEscape_injective (a b : string) : PathEscape a = PathEscape b -> a = b.
Proof.
  revert b. induction a as [|c a IH]; intros [|d b] E; cbn [PathEscape] in E.
  - reflexivity.
  - destruct (shouldEscapeSegment d); discriminate.
  - destruct (shouldEscapeSegment c); discriminate.
  - pose proof (nat_ascii_bounded c) as Bc. pose proof (nat_ascii_bounded d) as Bd.
    destruct (shouldEscapeSegment c) eqn:Ec, (shouldEscapeSegment d) eqn:Ed.
    + remember (nat_of_ascii c / 16)%nat as q1 eqn:Hq1.
      remember (nat_of_ascii d / 16)%nat as q2 eqn:Hq2.
      remember (nat_of_ascii c mod 16)%nat as r1 eqn:Hr1.
      remember (nat_of_ascii d mod 16)%nat as r2 eqn:Hr2.
      injection E as E1 E2 E3. subst q1 q2 r1 r2.
      apply hex_upper_inj in E1;
        [| apply Nat.Div0.div_lt_upper_bound; lia
         | apply Nat.Div0.div_lt_upper_bound; lia].
      apply hex_upper_inj in E2; [| apply Nat.mod_upper_bound; lia
                                  | apply Nat.mod_upper_bound; lia].
      assert (Hn : (nat_of_ascii c = nat_of_ascii d)%nat).
      { rewrite (Nat.div_mod_eq (nat_of_ascii c) 16), (Nat.div_mod_eq (nat_of_ascii d) 16).
        lia. }
      rewrite <- (ascii_nat_embedding c), <- (ascii_nat_embedding d), Hn.
      f_equal. now apply IH.
    + injection E as E1 _. subst d. discriminate Ed.
    + injection E as E1 _. subst c. discriminate Ec.
    + injection E as E1 E2. subst d. f_equal. now apply IH.
Qed.

Lemma PathEscape_injective_witness :
  PathEscape "../etc/passwd" = PathEscape "../etc/passwd" /\ "../etc/passwd" = "../etc/passwd".
Proof.
  split; [reflexivity|].
  apply (PathEscape_injective "../etc/passwd" "../etc/passwd"). vm_compute. reflexivity.
Defined.



(* ================================================================== *)
(** * Start-up: readSettings, openLogFile and main *)

Section StartupLemmas.

Variable cwd : string.


Lemma os_abs_logs : os_abs cwd (Join [absPath; "logs"]) = Some ("logs" :: clean_stack true cwd).
Proof.
  change (Join [absPath; "logs"]) with "logs". unfold os_abs.
  change (String.eqb "logs" "") with false. change (is_rooted "logs") with false.
  cbn iota. change (cwd ++ "/" ++ "logs") with (cwd ++ String "/" "logs").
  rewrite fold_split_cwd. reflexivity.
Qed.

Lemma os_abs_logfile : os_abs cwd (Join [Join [absPath; "logs"]; "log.log"]) = Some ("log.log" :: "logs" :: clean_stack true cwd).
Proof.
  change (Join [Join [absPath; "logs"]; "log.log"]) with "logs/log.log". unfold os_abs.
  change (String.eqb "logs/log.log" "") with false.
  change (is_rooted "logs/log.log") with false.
  cbn iota. change (cwd ++ "/" ++ "logs/log.log") with (cwd ++ String "/" "logs/log.log").
  rewrite fold_split_cwd. reflexivity.
Qed.

Lemma os_abs_settings : os_abs cwd (Join [absPath; "settings.json"]) = Some ("settings.json" :: clean_stack true cwd).
Proof.
  change (Join [absPath; "settings.json"]) with "settings.json". unfold os_abs.
  change (String.eqb "settings.json" "") with false.
  change (is_rooted "settings.json") with false.
  cbn iota. change (cwd ++ "/" ++ "settings.json") with (cwd ++ String "/" "settings.json").
  rewrite fold_split_cwd. reflexivity.
Qed.

Lemma apath_eqb_false (a b : apath) : a <> b -> apath_eqb a b = false.
Proof. intro H. destruct (apath_eqb a b) eqn:E; [|reflexivity]. now apply apath_eqb_true in E. Qed.

Lemma is_dir_add_other (fs0 : FS) (a b : apath) :
  a <> b -> is_dir (add_dir fs0 a) b = is_dir fs0 b.
Proof.
  intro H. unfold is_dir, add_dir. destruct b as [|x b]; [reflexivity|]. cbn [dirs existsb].
  rewrite apath_eqb_false by congruence. reflexivity.
Qed.

Lemma openLogFile_existing (fs0 : FS) :
  is_dir fs0 ("logs" :: clean_stack true cwd) = true -> is_file fs0 ("log.log" :: "logs" :: clean_stack true cwd) = true -> is_dir fs0 ("log.log" :: "logs" :: clean_stack true cwd) = false ->
  openLogFile cwd fs0 "log.log" = Done (fs0, inl ("log.log" :: "logs" :: clean_stack true cwd)).
Proof.
  intros HL HF HFd. unfold openLogFile. cbv zeta. unfold stat_is_dir.
  rewrite os_abs_logs, HL. cbn iota. unfold os_OpenFile_append.
  rewrite os_abs_logfile, HFd, HF. reflexivity.
Qed.

Lemma openLogFile_blocked (fs0 : FS) :
  is_dir fs0 ("logs" :: clean_stack true cwd) = false -> is_file fs0 ("logs" :: clean_stack true cwd) = true ->
  openLogFile cwd fs0 "log.log" = Fatal (pathError "mkdir" ("logs" :: clean_stack true cwd) "file exists").
Proof.
  intros HL HLf. unfold openLogFile. cbv zeta. unfold stat_is_dir, os_Mkdir.
  rewrite os_abs_logs, HL, HLf. reflexivity.
Qed.

Lemma openLogFile_fresh (fs0 : FS) :
  is_dir fs0 (clean_stack true cwd) = true -> is_dir fs0 ("logs" :: clean_stack true cwd) = false -> is_file fs0 ("logs" :: clean_stack true cwd) = false ->
  is_dir fs0 ("log.log" :: "logs" :: clean_stack true cwd) = false -> is_file fs0 ("log.log" :: "logs" :: clean_stack true cwd) = false ->
  openLogFile cwd fs0 "log.log" = Done (set_file (add_dir fs0 ("logs" :: clean_stack true cwd)) ("log.log" :: "logs" :: clean_stack true cwd) "", inl ("log.log" :: "logs" :: clean_stack true cwd)).
Proof.
  intros HC HL HLf HF HFf. unfold openLogFile. cbv zeta. unfold stat_is_dir, os_Mkdir.
  rewrite os_abs_logs, HL, HLf. cbn [orb]. cbn iota. rewrite HC. cbn iota.
  unfold os_OpenFile_append. rewrite os_abs_logfile.
  rewrite is_dir_add_other by congruence. rewrite HF.
  change (is_file (add_dir fs0 ("logs" :: (clean_stack true cwd))) ("log.log" :: "logs" :: (clean_stack true cwd)))
    with (is_file fs0 ("log.log" :: "logs" :: (clean_stack true cwd))).
  rewrite HFf, is_dir_add_self. reflexivity.
Qed.

Lemma readSettings_existing (U : string -> settingsType -> settingsType)
    (fs0 : FS) (st : settingsType) (c : string) :
  is_dir fs0 ("settings.json" :: clean_stack true cwd) = false -> lookup_file (files fs0) ("settings.json" :: clean_stack true cwd) = Some c ->
  readSettings U cwd fs0 st = (fs0, U c st, None).
Proof.
  intros Hd Hc. unfold readSettings. cbv zeta. unfold os_Stat, os_ReadFile, is_file.
  rewrite os_abs_settings, Hd, Hc. reflexivity.
Qed.

Lemma readSettings_dir (U : string -> settingsType -> settingsType)
    (fs0 : FS) (st : settingsType) :
  is_dir fs0 ("settings.json" :: clean_stack true cwd) = true ->
  readSettings U cwd fs0 st
  = (fs0, defaultSettings, Some (pathError "open" ("settings.json" :: clean_stack true cwd) "is a directory")).
Proof.
  intro Hd. unfold readSettings. cbv zeta. unfold os_Stat, os_Create.
  rewrite os_abs_settings, Hd. reflexivity.
Qed.

Lemma readSettings_missing (U : string -> settingsType -> settingsType)
    (fs0 : FS) (st : settingsType) :
  is_dir fs0 (clean_stack true cwd) = true -> is_dir fs0 ("settings.json" :: clean_stack true cwd) = false -> is_file fs0 ("settings.json" :: clean_stack true cwd) = false ->
  readSettings U cwd fs0 st
  = (set_file (set_file fs0 ("settings.json" :: clean_stack true cwd) "") ("settings.json" :: clean_stack true cwd) defaultSettingsJSON, defaultSettings, None).
Proof.
  intros HC Hd Hf. unfold readSettings. cbv zeta. unfold os_Stat, os_Create.
  rewrite os_abs_settings, Hd, Hf. cbn iota. rewrite HC. reflexivity.
Qed.

Lemma is_dir_dirs (f1 f2 : FS) (a : apath) :
  dirs f1 = dirs f2 -> is_dir f1 a = is_dir f2 a.
Proof. intro H. unfold is_dir. now rewrite H. Qed.

Lemma openLogFile_dirs_mono (fs0 fs1 : FS) (p : string) (a x : apath) :
  openLogFile cwd fs0 p = Done (fs1, inl a) -> is_dir fs0 x = true -> is_dir fs1 x = true.
Proof.
  intros Eo Hx. unfold openLogFile in Eo. cbv zeta in Eo.
  assert (Hm : forall fs', (if stat_is_dir cwd fs0 (Join [absPath; "logs"]) then inl fs0
                            else os_Mkdir cwd fs0 (Join [absPath; "logs"])) = inl fs' ->
                           is_dir fs' x = true).
  { intros fs' E. destruct (stat_is_dir _ _ _).
    - inversion E; subst. exact Hx.
    - unfold os_Mkdir in E. destruct (os_abs _ _) as [b|]; [|discriminate].
      destruct (is_dir fs0 b || is_file fs0 b); [discriminate|].
      destruct b as [|n parent]; [discriminate|].
      destruct (is_dir fs0 parent).
      + inversion E; subst. now apply is_dir_add_mono.
      + destruct (is_file fs0 parent); discriminate. }
  destruct (if stat_is_dir cwd fs0 (Join [absPath; "logs"]) then inl fs0
            else os_Mkdir cwd fs0 (Join [absPath; "logs"])) as [fs'|err];
    [|discriminate].
  specialize (Hm fs' eq_refl).
  unfold os_OpenFile_append in Eo. destruct (os_abs _ _) as [b|]; [|discriminate].
  destruct (is_dir fs' b); [discriminate|].
  destruct (is_file fs' b); [inversion Eo; subst; exact Hm|].
  destruct b as [|n parent]; [discriminate|].
  destruct (is_dir fs' parent).
  - inversion Eo; subst. rewrite (is_dir_dirs _ fs'); [exact Hm | reflexivity].
  - destruct (is_file fs' parent); discriminate.
Qed.

End StartupLemmas.

(** readSettings on the working directory's settings.json: a regular file
    is read and handed to json.Unmarshal, and the file system is left
    unchanged; a directory there makes readSettings return an error (that
    of os.Create) after the settings have been reset to the defaults; a
    missing file is created and the default settings are written to it as
    JSON, the settings being the defaults. *)
Theorem readSettings_outcomes (U : string -> settingsType -> settingsType)
    (cwd : string) (fs0 : FS) (st : settingsType) :
  let S := "settings.json" :: clean_stack true cwd in
  (forall c, is_dir fs0 S = false -> lookup_file (files fs0) S = Some c ->
     readSettings U cwd fs0 st = (fs0, U c st, None))
  /\ (is_dir fs0 S = true ->
      exists e, readSettings U cwd fs0 st = (fs0, defaultSettings, Some e))
  /\ (is_dir fs0 (clean_stack true cwd) = true -> is_dir fs0 S = false ->
      is_file fs0 S = false ->
      readSettings U cwd fs0 st
      = (set_file (set_file fs0 S "") S defaultSettingsJSON, defaultSettings, None)).
Proof.
  intro S. split; [|split].
  - intro c. apply readSettings_existing.
  - intro Hd. eexists. apply readSettings_dir. exact Hd.
  - apply readSettings_missing.
Qed.

Lemma readSettings_outcomes_witness :
  readSettings (fun _ st => st) "/srv/app"
    (mkFS [["srv"]; ["app"; "srv"]] [(["settings.json"; "app"; "srv"], "{}")])
    app_settings
  = (mkFS [["srv"]; ["app"; "srv"]] [(["settings.json"; "app"; "srv"], "{}")],
     app_settings, None)
  /\ (exists e, readSettings (fun _ st => st) "/srv/app"
       (mkFS [["srv"]; ["app"; "srv"]; ["settings.json"; "app"; "srv"]] []) app_settings
     = (mkFS [["srv"]; ["app"; "srv"]; ["settings.json"; "app"; "srv"]] [],
        defaultSettings, Some e))
  /\ readSettings (fun _ st => st) "/srv/app" app_fs app_settings
     = (set_file (set_file app_fs ["settings.json"; "app"; "srv"] "")
          ["settings.json"; "app"; "srv"] defaultSettingsJSON, defaultSettings, None).
Proof.
  split; [|split].
  - apply (proj1 (readSettings_outcomes (fun _ st => st) "/srv/app"
             (mkFS [["srv"]; ["app"; "srv"]] [(["settings.json"; "app"; "srv"], "{}")])
             app_settings) "{}"); vm_compute; reflexivity.
  - apply (proj1 (proj2 (readSettings_outcomes (fun _ st => st) "/srv/app"
             (mkFS [["srv"]; ["app"; "srv"]; ["settings.json"; "app"; "srv"]] [])
             app_settings))); vm_compute; reflexivity.
  - apply (proj2 (proj2 (readSettings_outcomes (fun _ st => st) "/srv/app"
             app_fs app_settings))); vm_compute; reflexivity.
Defined.

(** openLogFile("log.log"): an existing logs/log.log is opened for
    appending as it is (nothing is created or truncated); a regular file
    named logs makes os.Mkdir fail and the process end through log.Fatal;
    in a working directory without either, logs is created and an empty
    logs/log.log opened. *)
Theorem openLogFile_outcomes (cwd : string) (fs0 : FS) :
  let L := "logs" :: clean_stack true cwd in
  let F := "log.log" :: L in
  (is_dir fs0 L = true -> is_file fs0 F = true -> is_dir fs0 F = false ->
     openLogFile cwd fs0 "log.log" = Done (fs0, inl F))
  /\ (is_dir fs0 L = false -> is_file fs0 L = true ->
      exists m, openLogFile cwd fs0 "log.log" = Fatal m)
  /\ (is_dir fs0 (clean_stack true cwd) = true -> is_dir fs0 L = false ->
      is_file fs0 L = false -> is_dir fs0 F = false -> is_file fs0 F = false ->
      openLogFile cwd fs0 "log.log" = Done (set_file (add_dir fs0 L) F "", inl F)).
Proof.
  intros L F. split; [|split].
  - apply openLogFile_existing.
  - intros HL HLf. eexists. apply openLogFile_blocked; assumption.
  - apply openLogFile_fresh.
Qed.

Lemma openLogFile_outcomes_witness :
  openLogFile "/srv/app"
    (mkFS [["srv"]; ["app"; "srv"]; ["logs"; "app"; "srv"]]
          [(["log.log"; "logs"; "app"; "srv"], "old")]) "log.log"
  = Done (mkFS [["srv"]; ["app"; "srv"]; ["logs"; "app"; "srv"]]
               [(["log.log"; "logs"; "app"; "srv"], "old")],
          inl ["log.log"; "logs"; "app"; "srv"])
  /\ (exists m, openLogFile "/srv/app"
       (mkFS [["srv"]; ["app"; "srv"]] [(["logs"; "app"; "srv"], "")]) "log.log"
     = Fatal m)
  /\ openLogFile "/srv/app" app_fs "log.log"
     = Done (set_file (add_dir app_fs ["logs"; "app"; "srv"])
               ["log.log"; "logs"; "app"; "srv"] "", inl ["log.log"; "logs"; "app"; "srv"]).
Proof.
  split; [|split].
  - apply (proj1 (openLogFile_outcomes "/srv/app"
             (mkFS [["srv"]; ["app"; "srv"]; ["logs"; "app"; "srv"]]
                   [(["log.log"; "logs"; "app"; "srv"], "old")])));
      vm_compute; reflexivity.
  - apply (proj1 (proj2 (openLogFile_outcomes "/srv/app"
             (mkFS [["srv"]; ["app"; "srv"]] [(["logs"; "app"; "srv"], "")]))));
      vm_compute; reflexivity.
  - apply (proj2 (proj2 (openLogFile_outcomes "/srv/app" app_fs)));
      vm_compute; reflexivity.
Defined.

(** The start of main.  In a working directory holding neither logs nor
    settings.json, it creates logs, an empty logs/log.log and a
    settings.json with the default settings, and runs with the defaults.
    On a restart, with logs/log.log and a regular settings.json present, it
    changes nothing on disk and runs with the settings json.Unmarshal reads
    from the file.  Whatever else the directory holds, a directory named
    settings.json ends the process. *)
Theorem main_startup_outcomes (U : string -> settingsType -> settingsType)
    (cwd : string) (fs0 : FS) (st0 : settingsType) :
  let C := clean_stack true cwd in
  let L := "logs" :: C in
  let F := "log.log" :: L in
  let S := "settings.json" :: C in
  (is_dir fs0 C = true -> is_dir fs0 L = false -> is_file fs0 L = false ->
   is_dir fs0 F = false -> is_file fs0 F = false ->
   is_dir fs0 S = false -> is_file fs0 S = false ->
   exists fs2, main_startup U cwd fs0 st0 = Done (fs2, F, defaultSettings)
     /\ is_dir fs2 L = true /\ lookup_file (files fs2) F = Some ""
     /\ lookup_file (files fs2) S = Some defaultSettingsJSON)
  /\ (forall c, is_dir fs0 L = true -> is_file fs0 F = true -> is_dir fs0 F = false ->
      is_dir fs0 S = false -> lookup_file (files fs0) S = Some c ->
      main_startup U cwd fs0 st0 = Done (fs0, F, U c st0))
  /\ (is_dir fs0 S = true -> exists m, main_startup U cwd fs0 st0 = Fatal m).
Proof.
  intros C L F S. split; [|split].
  - intros HC HL HLf HF HFf HS HSf. unfold main_startup.
    rewrite (openLogFile_fresh cwd fs0 HC HL HLf HF HFf). cbn iota.
    set (fs1 := set_file (add_dir fs0 _) _ "").
    assert (HC1 : is_dir fs1 C = true) by (apply is_dir_add_mono; exact HC).
    assert (HS1 : is_dir fs1 S = false).
    { unfold fs1. change (is_dir (add_dir fs0 L) S = false).
      rewrite is_dir_add_other by (unfold L, S; congruence). exact HS. }
    assert (HSf1 : is_file fs1 S = false).
    { unfold fs1, is_file. cbn [files set_file add_dir lookup_file].
      rewrite apath_eqb_false by (unfold S, F, L; congruence). exact HSf. }
    rewrite (readSettings_missing cwd U fs1 st0 HC1 HS1 HSf1).
    eexists. split; [reflexivity|]. split; [|split].
    + change (is_dir (add_dir fs0 L) L = true). apply is_dir_add_self.
    + unfold fs1. cbn [files set_file add_dir lookup_file].
      rewrite !apath_eqb_false by (unfold S, F, L; congruence).
      rewrite apath_eqb_refl. reflexivity.
    + unfold fs1. cbn [files set_file add_dir lookup_file]. rewrite apath_eqb_refl.
      reflexivity.
  - intros c HL HF HFd HS Hc. unfold main_startup.
    rewrite (openLogFile_existing cwd fs0 HL HF HFd). cbn iota.
    rewrite (readSettings_existing cwd U fs0 st0 c HS Hc). reflexivity.
  - intro HS. unfold main_startup.
    destruct (openLogFile cwd fs0 "log.log") as [[fs1 [a|err]]|m] eqn:Eo;
      [|eexists; reflexivity|eexists; reflexivity].
    assert (HS1 : is_dir fs1 S = true) by exact (openLogFile_dirs_mono cwd fs0 fs1 _ a S Eo HS).
    rewrite (readSettings_dir cwd U fs1 st0 HS1). eexists. reflexivity.
Qed.

Lemma main_startup_outcomes_witness :
  (exists fs2, main_startup (fun _ st => st) "/srv/app" app_fs app_settings
                = Done (fs2, ["log.log"; "logs"; "app"; "srv"], defaultSettings)
     /\ is_dir fs2 ["logs"; "app"; "srv"] = true
     /\ lookup_file (files fs2) ["log.log"; "logs"; "app"; "srv"] = Some ""
     /\ lookup_file (files fs2) ["settings.json"; "app"; "srv"] = Some defaultSettingsJSON)
  /\ main_startup (fun _ st => st) "/srv/app"
       (mkFS [["srv"]; ["app"; "srv"]; ["logs"; "app"; "srv"]]
             [(["log.log"; "logs"; "app"; "srv"], "old");
              (["settings.json"; "app"; "srv"], "{}")]) app_settings
     = Done (mkFS [["srv"]; ["app"; "srv"]; ["logs"; "app"; "srv"]]
                  [(["log.log"; "logs"; "app"; "srv"], "old");
                   (["settings.json"; "app"; "srv"], "{}")],
             ["log.log"; "logs"; "app"; "srv"], app_settings)
  /\ (exists m, main_startup (fun _ st => st) "/srv/app"
       (mkFS [["srv"]; ["app"; "srv"]; ["settings.json"; "app"; "srv"]] []) app_settings
     = Fatal m).
Proof.
  split; [|split].
  - apply (proj1 (main_startup_outcomes (fun _ st => st) "/srv/app" app_fs app_settings));
      vm_compute; reflexivity.
  - apply (proj1 (proj2 (main_startup_outcomes (fun _ st => st) "/srv/app"
             (mkFS [["srv"]; ["app"; "srv"]; ["logs"; "app"; "srv"]]
                   [(["log.log"; "logs"; "app"; "srv"], "old");
                    (["settings.json"; "app"; "srv"], "{}")]) app_settings)) "{}");
      vm_compute; reflexivity.
  - apply (proj2 (proj2 (main_startup_outcomes (fun _ st => st) "/srv/app"
             (mkFS [["srv"]; ["app"; "srv"]; ["settings.json"; "app"; "srv"]] [])
             app_settings))).
    vm_compute. reflexivity.
Defined.

(* ================================================================== *)
(** * The limiter map and the earlier revision *)

(** ipLimiter.getLimiter creates the limiter of an address once: a second
    call returns the limiter the first one returned and leaves the map as
    the first call left it. *)
Theorem getLimiter_stable (reg reg1 : registry) (ip : string) (lim : Limiter) :
  getLimiter reg ip = (lim, reg1) -> getLimiter reg1 ip = (lim, reg1).
Proof.
  unfold getLimiter. destruct (reg_lookup reg ip) as [l|] eqn:E; intro H;
    inversion H; subst; clear H.
  - now rewrite E.
  - now rewrite reg_lookup_set.
Qed.

Lemma getLimiter_stable_witness :
  getLimiter (snd (getLimiter [] "127.0.0.1")) "127.0.0.1"
  = (NewLimiter rateLimit 1, snd (getLimiter [] "127.0.0.1")).
Proof. apply (getLimiter_stable [] _ "127.0.0.1" (NewLimiter rateLimit 1)). reflexivity. Defined.

(** The earlier revision (src/unnamed/part_000) admits requests as
    handler.go does with the allowlist 127.0.0.1, localhost, ::1 in its
    settings: the same rejections, identities and limiter updates. *)
Theorem Rev0_getRequestError_settings (d u : string) (r : Request) (now : Z)
    (reg : registry) :
  Rev0.getRequestError r now reg = getRequestError (mkSettings d Rev0.ips u) r now reg.
Proof.
  assert (Hc : Rev0.checkRequest r = checkRequest (mkSettings d Rev0.ips u) r).
  { unfold Rev0.checkRequest, checkRequest. cbv zeta. cbn [Ip].
    destruct (negb (String.eqb (Method r) "POST")); [reflexivity|].
    destruct (SplitHostPort (RemoteAddr r)) as [[ip port]|e]; reflexivity. }
  unfold Rev0.getRequestError, getRequestError. now rewrite Hc.
Qed.
